(** * Pull Updater Bot: the push-event handler of pull-updater.go

    The handler receives a push webhook, and for every open pull request of
    the repository asks the platform whether the head is behind its base,
    requests a branch update when it is, and comments on the pull request
    when the update fails.  The development embeds the label filter
    ([contains], [hasAllLabels]) and [Handle] and states the handler's
    behaviour as equations on the error it returns and on the sequence of
    API calls it issues. *)

From Stdlib Require Import String Ascii List ZArith Bool Lia.
Import ListNotations.
Local Open Scope string_scope.

(** ** Go values *)

(** The [error] interface: [None] is Go's [nil], a non-nil error is built by
    [errors.New] or wraps a cause ([errors.Wrap] of github.com/pkg/errors,
    whose message is the new text, a colon and the cause's message). *)
Module errors.

Inductive t : Type :=
| New (msg : string)
| Wrap (cause : t) (msg : string).

Fixpoint Error (e : t) : string :=
  match e with
  | New msg => msg
  | Wrap cause msg => msg ++ ": " ++ Error cause
  end.

End errors.

Definition error : Type := option errors.t.

(** A call that returns a value or a non-nil error, never both. *)
Inductive result (A : Type) : Type :=
| Ok (a : A)
| Err (e : errors.t).
Arguments Ok {A} a.
Arguments Err {A} e.

(** The line feed that Go writes [\n]. *)
Definition LF : string := String (ascii_of_nat 10) EmptyString.

(** [strings.ToLower]: the bytes 'A'..'Z' move to 'a'..'z', every other byte
    stays.  This is Go's answer on every string of ASCII bytes ([isASCII], the
    fast path of the Go function).  On a string with a byte above 0x7F Go
    decodes runes and sends each through [unicode.ToLower]; the Unicode tables
    are not part of this development, and there the definition agrees with Go
    only on valid UTF-8 in which no rune has a lower-case mapping (U+03D2 is
    one such rune).
    Statements that read the value of [ToLower] on label names are therefore
    made for ASCII names, apart from two facts that Go's function shares on
    every string: its result holds no byte 'A'..'Z', and it keeps a rune that
    has no lower-case mapping. *)
Module strings.

Definition isASCIIByte (c : ascii) : bool := (nat_of_ascii c <? 128)%nat.

(** No byte is [utf8.RuneSelf] or above. *)
Fixpoint isASCII (s : string) : bool :=
  match s with
  | EmptyString => true
  | String c s' => isASCIIByte c && isASCII s'
  end.

Definition isUpperByte (c : ascii) : bool :=
  (65 <=? nat_of_ascii c)%nat && (nat_of_ascii c <=? 90)%nat.

Definition toLowerByte (c : ascii) : ascii :=
  if isUpperByte c then ascii_of_nat (nat_of_ascii c + 32) else c.

Fixpoint ToLower (s : string) : string :=
  match s with
  | EmptyString => EmptyString
  | String c s' => String (toLowerByte c) (ToLower s')
  end.

(** Whether a string holds one of the bytes 'A'..'Z'. *)
Fixpoint hasUpper (s : string) : bool :=
  match s with
  | EmptyString => false
  | String c s' => isUpperByte c || hasUpper s'
  end.

End strings.

(** ** The go-github structures the handler reads

    A pointer is an [option]; every getter answers the zero value on a nil
    receiver or a nil field, as the generated accessors of go-github do. *)
Module github.

Module Label.
Record t : Type := mk { Name : option string }.
Definition GetName (l : option t) : string :=
  match l with
  | Some {| Name := Some n |} => n
  | _ => ""
  end.
End Label.

Module PullRequestBranch.
Record t : Type := mk { Ref : option string }.
Definition GetRef (b : option t) : string :=
  match b with
  | Some {| Ref := Some r |} => r
  | _ => ""
  end.
End PullRequestBranch.

Module PullRequest.
Record t : Type := mk {
  Number : option Z;
  Head : option PullRequestBranch.t;
  Base : option PullRequestBranch.t;
  Labels : list (option Label.t) }.
Definition GetNumber (pr : t) : Z :=
  match Number pr with Some n => n | None => 0%Z end.
Definition GetHead (pr : t) : option PullRequestBranch.t := Head pr.
Definition GetBase (pr : t) : option PullRequestBranch.t := Base pr.
End PullRequest.

Module CommitsComparison.
Record t : Type := mk { AheadBy : option Z; BehindBy : option Z }.
Definition GetBehindBy (c : option t) : Z :=
  match c with
  | Some {| BehindBy := Some n |} => n
  | _ => 0%Z
  end.
End CommitsComparison.

Module PullRequestBranchUpdateResponse.
Record t : Type := mk { Message : option string; URL : option string }.
Definition GetMessage (r : option t) : string :=
  match r with
  | Some {| Message := Some m |} => m
  | _ => ""
  end.
End PullRequestBranchUpdateResponse.

Module User.
Record t : Type := mk { Login : option string }.
Definition GetLogin (u : option t) : string :=
  match u with
  | Some {| Login := Some l |} => l
  | _ => ""
  end.
End User.

Module PushEventRepository.
Record t : Type := mk {
  Name : option string;
  Owner : option User.t;
  DefaultBranch : option string }.
Definition GetName (r : option t) : string :=
  match r with
  | Some {| Name := Some n |} => n
  | _ => ""
  end.
Definition GetOwner (r : option t) : option User.t :=
  match r with
  | Some r' => Owner r'
  | None => None
  end.
Definition GetDefaultBranch (r : option t) : string :=
  match r with
  | Some {| DefaultBranch := Some b |} => b
  | _ => ""
  end.
End PushEventRepository.

Module Installation.
Record t : Type := mk { ID : option Z }.
Definition GetID (i : option t) : Z :=
  match i with
  | Some {| ID := Some n |} => n
  | _ => 0%Z
  end.
End Installation.

Module PushEvent.
Record t : Type := mk {
  Ref : option string;
  Repo : option PushEventRepository.t;
  Installation : option Installation.t }.
Definition GetRef (e : option t) : string :=
  match e with
  | Some {| Ref := Some r |} => r
  | _ => ""
  end.
Definition GetRepo (e : option t) : option PushEventRepository.t :=
  match e with
  | Some e' => Repo e'
  | None => None
  end.
Definition GetInstallation (e : option t) : option Installation.t :=
  match e with
  | Some e' => Installation e'
  | None => None
  end.
End PushEvent.

(** ** The platform

    The four operations the handler consumes.  A [Call] records one request
    with its arguments. *)
Inductive Call : Type :=
| PullRequests_List (owner repo state : string)
| Repositories_CompareCommits (owner repo base head : string)
| PullRequests_UpdateBranch (owner repo : string) (number : Z)
| Issues_CreateComment (owner repo : string) (number : Z) (body : string).

(** An installation client.  The platform is deterministic in the requests it
    has seen: each answer is a function of the calls made before and of the
    request.  Answers keep the shape of the Go results: value and error side
    by side where the handler reads them separately. *)
Module Client.
Record t : Type := mk {
  List_ : list Call -> string -> string -> string ->
          list PullRequest.t * error;
  CompareCommits : list Call -> string -> string -> string -> string ->
                   option CommitsComparison.t * error;
  UpdateBranch : list Call -> string -> string -> Z ->
                 option PullRequestBranchUpdateResponse.t * error;
  CreateComment : list Call -> string -> string -> Z -> string -> error }.
End Client.

End github.
Import github.

Definition isCompareCommits (c : Call) : bool :=
  match c with Repositories_CompareCommits _ _ _ _ => true | _ => false end.
Definition isUpdateBranch (c : Call) : bool :=
  match c with PullRequests_UpdateBranch _ _ _ => true | _ => false end.
Definition isCreateComment (c : Call) : bool :=
  match c with Issues_CreateComment _ _ _ _ => true | _ => false end.
Definition isList (c : Call) : bool :=
  match c with PullRequests_List _ _ _ => true | _ => false end.

(** [githubapp.GetInstallationIDFromEvent]. *)
Module githubapp.
Definition GetInstallationIDFromEvent (e : option PushEvent.t) : Z :=
  Installation.GetID (PushEvent.GetInstallation e).
End githubapp.

(** ** Computations that talk to the platform

    A computation reads the calls made so far and answers with its value and
    the calls it issued itself, oldest first. *)
Definition Api (A : Type) : Type := list Call -> A * list Call.

Definition ret {A : Type} (a : A) : Api A := fun _ => (a, []).

Definition bind {A B : Type} (m : Api A) (k : A -> Api B) : Api B :=
  fun hist =>
    let (a, cs1) := m hist in
    let (b, cs2) := k a (hist ++ cs1)%list in
    (b, (cs1 ++ cs2)%list).

Definition request {A : Type} (c : Call) (answer : list Call -> A) : Api A :=
  fun hist => (answer hist, [c]).

Declare Scope api_scope.
Delimit Scope api_scope with api.
Notation "x <- m ;; k" := (bind m (fun x => k))
  (at level 61, m at next level, right associativity) : api_scope.
Notation "' p <- m ;; k" := (bind m (fun x => let 'p := x in k))
  (at level 61, p pattern, m at next level, right associativity) : api_scope.
Local Open Scope api_scope.

Definition client_List (cl : Client.t) (owner repo state : string)
  : Api (list PullRequest.t * error) :=
  request (PullRequests_List owner repo state)
          (fun hist => Client.List_ cl hist owner repo state).

Definition client_CompareCommits (cl : Client.t) (owner repo base head : string)
  : Api (option CommitsComparison.t * error) :=
  request (Repositories_CompareCommits owner repo base head)
          (fun hist => Client.CompareCommits cl hist owner repo base head).

Definition client_UpdateBranch (cl : Client.t) (owner repo : string) (number : Z)
  : Api (option PullRequestBranchUpdateResponse.t * error) :=
  request (PullRequests_UpdateBranch owner repo number)
          (fun hist => Client.UpdateBranch cl hist owner repo number).

Definition client_CreateComment (cl : Client.t) (owner repo : string)
  (number : Z) (body : string) : Api error :=
  request (Issues_CreateComment owner repo number body)
          (fun hist => Client.CreateComment cl hist owner repo number body).

(** ** pull-updater.go *)

(** The handler: the client factory it embeds and its two options. *)
Record PRBranchUpdateHandler : Type := {
  NewInstallationClient : Z -> result Client.t;
  preamble : string;
  labels : list string }.

Fixpoint contains (prLabels : list (option Label.t)) (label : string) : bool :=
  match prLabels with
  | [] => false
  | prLabel :: prLabels' =>
      let prLabel := Label.GetName prLabel in
      let prLabel := strings.ToLower prLabel in
      if String.eqb prLabel label then true else contains prLabels' label
  end.

Fixpoint hasAllLabels (labels : list string) (prLabels : list (option Label.t))
  : bool :=
  match labels with
  | [] => true
  | label :: labels' =>
      if negb (contains prLabels label) then false
      else hasAllLabels labels' prLabels
  end.

(** The message of the one update failure the handler does not report as a
    failure. *)
Definition job_scheduled : string :=
  "job scheduled on GitHub side; try again later".

(** How one turn of the loop over the pull requests ends: the loop goes on
    ([continue], or the end of the body), or [Handle] returns an error. *)
Inductive flow : Type :=
| next_iteration
| return_ (err : errors.t).

(** The body of [for _, pr := range pullRequests]. *)
Definition loop_body (h : PRBranchUpdateHandler) (client : Client.t)
  (repoOwner repoName : string) (pr : PullRequest.t) : Api flow :=
  let prNum := PullRequest.GetNumber pr in
  let headRef := PullRequestBranch.GetRef (PullRequest.GetHead pr) in
  let baseRef := PullRequestBranch.GetRef (PullRequest.GetBase pr) in
  let prLabels := PullRequest.Labels pr in
  let hasLabels :=
    if (0 <? length (labels h))%nat then hasAllLabels (labels h) prLabels
    else true in
  if negb hasLabels then ret next_iteration
  else
    '(commitComparison, _) <-
       client_CompareCommits client repoOwner repoName baseRef headRef ;;
    if (CommitsComparison.GetBehindBy commitComparison >=? 1)%Z then
      '(updateResponse, err) <-
         client_UpdateBranch client repoOwner repoName prNum ;;
      match err with
      | Some e =>
          if String.eqb (errors.Error e) job_scheduled then
            let msg :=
              preamble h ++ LF ++ LF ++
              PullRequestBranchUpdateResponse.GetMessage updateResponse in
            err' <- client_CreateComment client repoOwner repoName prNum msg ;;
            match err' with
            | Some e' => ret (return_ e')
            | None => ret next_iteration
            end
          else
            let msg :=
              "Failed to update pull request. Error: " ++ errors.Error e in
            err' <- client_CreateComment client repoOwner repoName prNum msg ;;
            match err' with
            | Some e' => ret (return_ e')
            | None => ret next_iteration
            end
      | None => ret next_iteration
      end
    else ret next_iteration.

(** The loop itself, and the [return nil] after it. *)
Fixpoint range_pullRequests (h : PRBranchUpdateHandler) (client : Client.t)
  (repoOwner repoName : string) (pullRequests : list PullRequest.t)
  : Api error :=
  match pullRequests with
  | [] => ret None
  | pr :: rest =>
      f <- loop_body h client repoOwner repoName pr ;;
      match f with
      | next_iteration => range_pullRequests h client repoOwner repoName rest
      | return_ err => ret (Some err)
      end
  end.

Section Handler.

(** [json.Unmarshal] into a [*github.PushEvent]: the decoder of the standard
    library, taken as given.  The JSON [null] decodes to the nil pointer. *)
Variable json_Unmarshal : string -> result (option PushEvent.t).

(** [Handle].  The context is handed unchanged to every call and the zerolog
    lines only write to standard output; neither is modelled.  The event type
    and the delivery identifier are not read. *)
Definition Handle (h : PRBranchUpdateHandler) (eventType deliveryID : string)
  (payload : string) : Api error :=
  match json_Unmarshal payload with
  | Err err =>
      ret (Some (errors.Wrap err "failed to parse push event payload"))
  | Ok pushEvent =>
      let installationID := githubapp.GetInstallationIDFromEvent pushEvent in
      match NewInstallationClient h installationID with
      | Err err => ret (Some err)
      | Ok client =>
          let repo := PushEvent.GetRepo pushEvent in
          let repoOwner := User.GetLogin (PushEventRepository.GetOwner repo) in
          let repoName := PushEventRepository.GetName repo in
          let repoDefaultBranch := PushEventRepository.GetDefaultBranch repo in
          if negb (String.eqb (PushEvent.GetRef pushEvent)
                              ("refs/heads/" ++ repoDefaultBranch))
          then ret None
          else
            '(pullRequests, err) <-
               client_List client repoOwner repoName "open" ;;
            match err with
            | Some e => ret (Some e)
            | None =>
                range_pullRequests h client repoOwner repoName pullRequests
            end
      end
  end.

End Handler.

(** ** Vocabulary for the statements *)

Local Open Scope list_scope.

(** The calls a turn of the loop can issue for [pr]. *)
Definition compare_call (repoOwner repoName : string) (pr : PullRequest.t)
  : Call :=
  Repositories_CompareCommits repoOwner repoName
    (PullRequestBranch.GetRef (PullRequest.GetBase pr))
    (PullRequestBranch.GetRef (PullRequest.GetHead pr)).

Definition update_call (repoOwner repoName : string) (pr : PullRequest.t)
  : Call :=
  PullRequests_UpdateBranch repoOwner repoName (PullRequest.GetNumber pr).

Definition comment_call (repoOwner repoName : string) (pr : PullRequest.t)
  (body : string) : Call :=
  Issues_CreateComment repoOwner repoName (PullRequest.GetNumber pr) body.

(** What the platform answers to them when the turn for [pr] starts after the
    calls [hist]: the comparison, the update that follows it, and the comment
    that follows both. *)
Definition compare_answer (client : Client.t) (repoOwner repoName : string)
  (pr : PullRequest.t) (hist : list Call)
  : option CommitsComparison.t * error :=
  Client.CompareCommits client hist repoOwner repoName
    (PullRequestBranch.GetRef (PullRequest.GetBase pr))
    (PullRequestBranch.GetRef (PullRequest.GetHead pr)).

Definition behindBy (client : Client.t) (repoOwner repoName : string)
  (pr : PullRequest.t) (hist : list Call) : Z :=
  CommitsComparison.GetBehindBy
    (fst (compare_answer client repoOwner repoName pr hist)).

Definition update_answer (client : Client.t) (repoOwner repoName : string)
  (pr : PullRequest.t) (hist : list Call)
  : option PullRequestBranchUpdateResponse.t * error :=
  Client.UpdateBranch client (hist ++ [compare_call repoOwner repoName pr])
    repoOwner repoName (PullRequest.GetNumber pr).

Definition comment_answer (client : Client.t) (repoOwner repoName : string)
  (pr : PullRequest.t) (hist : list Call) (body : string) : error :=
  Client.CreateComment client
    ((hist ++ [compare_call repoOwner repoName pr])
       ++ [update_call repoOwner repoName pr])
    repoOwner repoName (PullRequest.GetNumber pr) body.

(** The label gate lets [pr] through: no label is configured, or
    [hasAllLabels] finds them all. *)
Definition gate_open (h : PRBranchUpdateHandler) (pr : PullRequest.t) : Prop :=
  labels h = [] \/ hasAllLabels (labels h) (PullRequest.Labels pr) = true.

(** A required label is missing from a pull request when none of its label
    names equals it, letter case apart. *)
Definition missing (label : string) (prLabels : list (option Label.t)) : Prop :=
  forall prLabel, In prLabel prLabels ->
    strings.ToLower (Label.GetName prLabel) <> strings.ToLower label.

(** Every label name of a pull request is ASCII. *)
Definition ascii_names (prLabels : list (option Label.t)) : Prop :=
  forall prLabel, In prLabel prLabels ->
    strings.isASCII (Label.GetName prLabel) = true.

(** The two comment bodies. *)
Definition scheduled_body (h : PRBranchUpdateHandler)
  (updateResponse : option PullRequestBranchUpdateResponse.t) : string :=
  (preamble h ++ LF ++ LF ++
   PullRequestBranchUpdateResponse.GetMessage updateResponse)%string.

Definition failed_body (e : errors.t) : string :=
  ("Failed to update pull request. Error: " ++ errors.Error e)%string.

Section Run.

Variable json_Unmarshal : string -> result (option PushEvent.t).
Variable h : PRBranchUpdateHandler.
Variables eventType deliveryID payload : string.

(** [Handle], started after the calls [hist0], gets to the turn of [pr] in its
    loop: the payload decodes, the installation client [client] is obtained,
    the push is to the default branch, the listing answers [pre ++ pr :: rest]
    and the turns of [pre] end without a return.  [before] are the calls
    issued on the way. *)
Definition reaches (hist0 : list Call) (client : Client.t)
  (repoOwner repoName : string) (pre : list PullRequest.t)
  (pr : PullRequest.t) (rest : list PullRequest.t) (before : list Call)
  : Prop :=
  exists pushEvent calls_pre,
    json_Unmarshal payload = Ok pushEvent /\
    NewInstallationClient h (githubapp.GetInstallationIDFromEvent pushEvent)
      = Ok client /\
    repoOwner =
      User.GetLogin (PushEventRepository.GetOwner (PushEvent.GetRepo pushEvent)) /\
    repoName = PushEventRepository.GetName (PushEvent.GetRepo pushEvent) /\
    PushEvent.GetRef pushEvent =
      ("refs/heads/" ++
       PushEventRepository.GetDefaultBranch (PushEvent.GetRepo pushEvent))%string /\
    Client.List_ client hist0 repoOwner repoName "open"
      = (pre ++ pr :: rest, None) /\
    range_pullRequests h client repoOwner repoName pre
      (hist0 ++ [PullRequests_List repoOwner repoName "open"])
      = (None, calls_pre) /\
    before = PullRequests_List repoOwner repoName "open" :: calls_pre.

(** [Handle] has issued the calls [issued] and what is left of it is the loop
    over [rest]: its error and its further calls are those of that loop. *)
Definition proceeds_to (hist0 : list Call) (client : Client.t)
  (repoOwner repoName : string) (rest : list PullRequest.t)
  (issued : list Call) : Prop :=
  Handle json_Unmarshal h eventType deliveryID payload hist0 =
    (fst (range_pullRequests h client repoOwner repoName rest (hist0 ++ issued)),
     issued ++
     snd (range_pullRequests h client repoOwner repoName rest (hist0 ++ issued))).

End Run.

(** ** A repository to run the handler on

    acme/widgets with default branch main, installation 123456, and two open
    pull requests.  The platform's answers are the parameters of
    [mock_client]. *)
Module Fixture.

Definition push_main : string := "push refs/heads/main".
Definition push_feature : string := "push refs/heads/feature-branch".

Definition repository : PushEventRepository.t :=
  PushEventRepository.mk (Some "widgets")
    (Some (User.mk (Some "acme"))) (Some "main").

Definition event (ref : string) : option PushEvent.t :=
  Some (PushEvent.mk (Some ref) (Some repository)
          (Some (Installation.mk (Some 123456%Z)))).

Definition json_Unmarshal (payload : string) : result (option PushEvent.t) :=
  if String.eqb payload push_main then Ok (event "refs/heads/main")
  else if String.eqb payload push_feature
  then Ok (event "refs/heads/feature-branch")
  else Err (errors.New "unexpected end of JSON input").

Definition label (name : string) : option Label.t :=
  Some (Label.mk (Some name)).

Definition branch (ref : string) : option PullRequestBranch.t :=
  Some (PullRequestBranch.mk (Some ref)).

Definition pr1 : PullRequest.t :=
  PullRequest.mk (Some 1%Z) (branch "feature-a") (branch "main")
    [label "Approved To Merge"].

Definition pr2 : PullRequest.t :=
  PullRequest.mk (Some 2%Z) (branch "feature-b") (branch "main")
    [label "wip"].

Definition behind (n : Z) : option CommitsComparison.t * error :=
  (Some (CommitsComparison.mk (Some 0%Z) (Some n)), None).

Definition mock_client
  (compare : string -> option CommitsComparison.t * error)
  (update : Z -> option PullRequestBranchUpdateResponse.t * error)
  (comment : Z -> error) : Client.t :=
  Client.mk
    (fun _ _ _ _ => ([pr1; pr2], None))
    (fun _ _ _ _ head => compare head)
    (fun _ _ _ number => update number)
    (fun _ _ _ number _ => comment number).

Definition handler (client : Client.t) (preamble : string)
  (labels : list string) : PRBranchUpdateHandler :=
  {| NewInstallationClient := fun installationID =>
       if (installationID =? 123456)%Z then Ok client
       else Err (errors.New "could not create installation client");
     preamble := preamble;
     labels := labels |}.

Definition updated : option PullRequestBranchUpdateResponse.t * error :=
  (Some (PullRequestBranchUpdateResponse.mk
           (Some "Updating pull request branch.") None), None).

Definition merge_conflict : errors.t := errors.New "merge conflict".
Definition not_found : errors.t := errors.New "404 Not Found".
Definition forbidden : errors.t := errors.New "403 Forbidden".

Definition scheduled : option PullRequestBranchUpdateResponse.t * error :=
  (Some (PullRequestBranchUpdateResponse.mk
           (Some "Updating pull request branch.") None),
   Some (errors.New job_scheduled)).

(** Both pull requests are behind; the update of #1 fails on a conflict and
    the comment on it is posted. *)
Definition conflict_client : Client.t :=
  mock_client (fun _ => behind 3)
    (fun number => if (number =? 1)%Z then (None, Some merge_conflict)
                   else updated)
    (fun _ => None).

(** The comparison for #1 fails; #2 is behind. *)
Definition compare_fails_client : Client.t :=
  mock_client (fun head => if String.eqb head "feature-a"
                           then (None, Some not_found) else behind 3)
    (fun _ => updated) (fun _ => None).

(** #1 is up to date, #2 is three commits behind and its update succeeds. *)
Definition plain_client : Client.t :=
  mock_client (fun head => if String.eqb head "feature-a"
                           then behind 0 else behind 3)
    (fun _ => updated) (fun _ => None).

(** The same, but the update of #2 is scheduled on the platform's side; the
    comment is posted, or refused. *)
Definition scheduled_client (comment : error) : Client.t :=
  mock_client (fun head => if String.eqb head "feature-a"
                           then behind 0 else behind 3)
    (fun _ => scheduled) (fun _ => comment).

(** The labels of the repository's TestHasAllLabels. *)
Definition test_prLabels : list (option Label.t) :=
  [label "Approved to Merge"; label "Ready to Merge"; label "Needs Review"].
Definition test_configLabels : list string :=
  ["Approved to Merge"; "Ready to Merge"].

(** The calls of a run. *)
Definition listing : Call := PullRequests_List "acme" "widgets" "open".
Definition compare1 : Call := compare_call "acme" "widgets" pr1.
Definition compare2 : Call := compare_call "acme" "widgets" pr2.
Definition update1 : Call := update_call "acme" "widgets" pr1.
Definition update2 : Call := update_call "acme" "widgets" pr2.

(** One delivery of a push, with no call made before. *)
Definition deliver (h : PRBranchUpdateHandler) (payload : string)
  : error * list Call :=
  Handle json_Unmarshal h "push" "delivery-1" payload [].

End Fixture.

(** ** Where a call goes *)

(** The repository a call addresses, and the pull request number of the calls
    that carry one. *)
Definition call_repository (c : Call) : string * string :=
  match c with
  | PullRequests_List owner repo _ => (owner, repo)
  | Repositories_CompareCommits owner repo _ _ => (owner, repo)
  | PullRequests_UpdateBranch owner repo _ => (owner, repo)
  | Issues_CreateComment owner repo _ _ => (owner, repo)
  end.

Definition call_number (c : Call) : option Z :=
  match c with
  | PullRequests_UpdateBranch _ _ number => Some number
  | Issues_CreateComment _ _ number _ => Some number
  | _ => None
  end.

(** What [hasAllLabels] answers for a pull request under the handler's
    configured labels. *)
Definition eligible (h : PRBranchUpdateHandler) (pr : PullRequest.t) : bool :=
  hasAllLabels (labels h) (PullRequest.Labels pr).

(** The lower-cased label names of a pull request. *)
Definition lowered_names (prLabels : list (option Label.t)) : list string :=
  map (fun prLabel => strings.ToLower (Label.GetName prLabel)) prLabels.

(** Labels spelled with upper-case letters. *)
Module Spelling.



(** Every pull request is three commits behind and every update succeeds. *)
Definition behind_client : Client.t :=
  Fixture.mock_client (fun _ => Fixture.behind 3) (fun _ => Fixture.updated)
    (fun _ => None).

End Spelling.

(** A platform whose listing fails, though it hands back a pull request. *)
Module Outage.

Definition client : Client.t :=
  Client.mk
    (fun _ _ _ _ => ([Fixture.pr1], Some Fixture.forbidden))
    (fun _ _ _ _ _ => Fixture.behind 3)
    (fun _ _ _ _ => Fixture.updated)
    (fun _ _ _ _ _ => None).

Definition no_client : PRBranchUpdateHandler :=
  {| NewInstallationClient := fun _ => Err Fixture.forbidden;
     preamble := "Auto-update:";
     labels := [] |}.

End Outage.

(** ** The earlier handlers

    The repository keeps two earlier handlers: the push handler without the
    label filter (the second listing of pull-updater.go) and the handler of
    pull request events.  Both ask the platform for a branch, so their client
    has a fifth operation. *)
Module Earlier.

Module RepositoryCommit.
Record t : Type := mk { SHA : option string }.
Definition GetSHA (c : option t) : string :=
  match c with
  | Some {| SHA := Some s |} => s
  | _ => ""
  end.
End RepositoryCommit.

Module Branch.
Record t : Type := mk {
  Name : option string;
  Commit : option RepositoryCommit.t }.
Definition GetCommit (b : option t) : option RepositoryCommit.t :=
  match b with
  | Some b' => Commit b'
  | None => None
  end.
End Branch.

Inductive Call : Type :=
| Repositories_GetBranch (owner repo branch : string) (followRedirects : bool)
| PullRequests_List (owner repo state : string)
| Repositories_CompareCommits (owner repo base head : string)
| PullRequests_UpdateBranch (owner repo : string) (number : Z)
| Issues_CreateComment (owner repo : string) (number : Z) (body : string).

Definition isGetBranch (c : Call) : bool :=
  match c with Repositories_GetBranch _ _ _ _ => true | _ => false end.
Definition isCreateComment (c : Call) : bool :=
  match c with Issues_CreateComment _ _ _ _ => true | _ => false end.

Module Client.
Record t : Type := mk {
  GetBranch : list Call -> string -> string -> string -> bool ->
              option Branch.t * error;
  List_ : list Call -> string -> string -> string ->
          list PullRequest.t * error;
  CompareCommits : list Call -> string -> string -> string -> string ->
                   option CommitsComparison.t * error;
  UpdateBranch : list Call -> string -> string -> Z ->
                 option PullRequestBranchUpdateResponse.t * error;
  CreateComment : list Call -> string -> string -> Z -> string -> error }.
End Client.

(** Computations over this platform, as [Api] above. *)
Definition Api (A : Type) : Type := list Call -> A * list Call.

Definition ret {A : Type} (a : A) : Api A := fun _ => (a, []).

Definition bind {A B : Type} (m : Api A) (k : A -> Api B) : Api B :=
  fun hist =>
    let (a, cs1) := m hist in
    let (b, cs2) := k a (hist ++ cs1) in
    (b, cs1 ++ cs2).

Definition request {A : Type} (c : Call) (answer : list Call -> A) : Api A :=
  fun hist => (answer hist, [c]).

Declare Scope earlier_scope.
Notation "x <- m ;; k" := (bind m (fun x => k))
  (at level 61, m at next level, right associativity) : earlier_scope.
Notation "' p <- m ;; k" := (bind m (fun x => let 'p := x in k))
  (at level 61, p pattern, m at next level, right associativity) : earlier_scope.
Local Open Scope earlier_scope.

Definition client_GetBranch (cl : Client.t) (owner repo branch : string)
  (followRedirects : bool) : Api (option Branch.t * error) :=
  request (Repositories_GetBranch owner repo branch followRedirects)
          (fun hist => Client.GetBranch cl hist owner repo branch followRedirects).

Definition client_List (cl : Client.t) (owner repo state : string)
  : Api (list PullRequest.t * error) :=
  request (PullRequests_List owner repo state)
          (fun hist => Client.List_ cl hist owner repo state).

Definition client_CompareCommits (cl : Client.t) (owner repo base head : string)
  : Api (option CommitsComparison.t * error) :=
  request (Repositories_CompareCommits owner repo base head)
          (fun hist => Client.CompareCommits cl hist owner repo base head).

Definition client_UpdateBranch (cl : Client.t) (owner repo : string) (number : Z)
  : Api (option PullRequestBranchUpdateResponse.t * error) :=
  request (PullRequests_UpdateBranch owner repo number)
          (fun hist => Client.UpdateBranch cl hist owner repo number).

Definition client_CreateComment (cl : Client.t) (owner repo : string)
  (number : Z) (body : string) : Api error :=
  request (Issues_CreateComment owner repo number body)
          (fun hist => Client.CreateComment cl hist owner repo number body).

(** The handler of both listings: the client factory and the preamble. *)
Record PRBranchUpdateHandler : Type := {
  NewInstallationClient : Z -> result Client.t;
  preamble : string }.

(** *** The push handler without labels (pull-updater.go, second listing) *)
Module Push.

(** The body of its loop.  After the comment on a failed update it returns
    the update's error. *)
Definition loop_body (h : PRBranchUpdateHandler) (client : Client.t)
  (repoOwner repoName : string) (pr : PullRequest.t) : Api flow :=
  let prNum := PullRequest.GetNumber pr in
  let headRef := PullRequestBranch.GetRef (PullRequest.GetHead pr) in
  let baseRef := PullRequestBranch.GetRef (PullRequest.GetBase pr) in
  '(commitComparison, _) <-
     client_CompareCommits client repoOwner repoName baseRef headRef ;;
  if (CommitsComparison.GetBehindBy commitComparison >=? 1)%Z then
    '(updateResponse, err) <-
       client_UpdateBranch client repoOwner repoName prNum ;;
    match err with
    | Some e =>
        if String.eqb (errors.Error e) job_scheduled then
          let msg :=
            (preamble h ++ LF ++ LF ++
             PullRequestBranchUpdateResponse.GetMessage updateResponse)%string in
          err' <- client_CreateComment client repoOwner repoName prNum msg ;;
          match err' with
          | Some e' => ret (return_ e')
          | None => ret next_iteration
          end
        else
          let msg :=
            ("Failed to update pull request. Error: " ++ errors.Error e)%string in
          err' <- client_CreateComment client repoOwner repoName prNum msg ;;
          match err' with
          | Some e' => ret (return_ e')
          | None => ret (return_ e)
          end
    | None => ret next_iteration
    end
  else ret next_iteration.

Fixpoint range_pullRequests (h : PRBranchUpdateHandler) (client : Client.t)
  (repoOwner repoName : string) (pullRequests : list PullRequest.t)
  : Api error :=
  match pullRequests with
  | [] => ret None
  | pr :: rest =>
      f <- loop_body h client repoOwner repoName pr ;;
      match f with
      | next_iteration => range_pullRequests h client repoOwner repoName rest
      | return_ err => ret (Some err)
      end
  end.

(** [Handle]; the branch it asks for is only printed. *)
Definition Handle (json_Unmarshal : string -> result (option PushEvent.t))
  (h : PRBranchUpdateHandler) (eventType deliveryID : string)
  (payload : string) : Api error :=
  match json_Unmarshal payload with
  | Err err =>
      ret (Some (errors.Wrap err "failed to parse push event payload"))
  | Ok pushEvent =>
      let installationID := githubapp.GetInstallationIDFromEvent pushEvent in
      match NewInstallationClient h installationID with
      | Err err => ret (Some err)
      | Ok client =>
          let repo := PushEvent.GetRepo pushEvent in
          let repoOwner := User.GetLogin (PushEventRepository.GetOwner repo) in
          let repoName := PushEventRepository.GetName repo in
          let repoDefaultBranch := PushEventRepository.GetDefaultBranch repo in
          if negb (String.eqb (PushEvent.GetRef pushEvent)
                              ("refs/heads/" ++ repoDefaultBranch))
          then ret None
          else
            '(defaultBranch, err) <-
               client_GetBranch client repoOwner repoName
                 (PushEventRepository.GetDefaultBranch repo) true ;;
            match err with
            | Some e => ret (Some e)
            | None =>
                '(pullRequests, err) <-
                   client_List client repoOwner repoName "open" ;;
                match err with
                | Some e => ret (Some e)
                | None =>
                    range_pullRequests h client repoOwner repoName pullRequests
                end
            end
      end
  end.

End Push.

(** *** The handler of pull request events *)
Module PullRequestHandler.

(** The event, with the fields that reach a call.  (The author, the head ref
    and the base repository are read for the logger only.) *)
Module Repository.
Record t : Type := mk { Name : option string; Owner : option User.t }.
Definition GetName (r : option t) : string :=
  match r with
  | Some {| Name := Some n |} => n
  | _ => ""
  end.
Definition GetOwner (r : option t) : option User.t :=
  match r with
  | Some r' => Owner r'
  | None => None
  end.
End Repository.

Module PullRequestBranch.
Record t : Type := mk { Ref : option string; SHA : option string }.
Definition GetRef (b : option t) : string :=
  match b with
  | Some {| Ref := Some r |} => r
  | _ => ""
  end.
Definition GetSHA (b : option t) : string :=
  match b with
  | Some {| SHA := Some s |} => s
  | _ => ""
  end.
End PullRequestBranch.

Module PullRequest.
Record t : Type := mk {
  Number : option Z;
  Head : option PullRequestBranch.t;
  Base : option PullRequestBranch.t }.
Definition GetNumber (pr : option t) : Z :=
  match pr with
  | Some {| Number := Some n |} => n
  | _ => 0%Z
  end.
Definition GetHead (pr : option t) : option PullRequestBranch.t :=
  match pr with
  | Some pr' => Head pr'
  | None => None
  end.
Definition GetBase (pr : option t) : option PullRequestBranch.t :=
  match pr with
  | Some pr' => Base pr'
  | None => None
  end.
End PullRequest.

Module PullRequestEvent.
Record t : Type := mk {
  Action : option string;
  PullRequest_ : option PullRequest.t;
  Repo : option Repository.t;
  Installation_ : option Installation.t }.
Definition GetAction (e : t) : string :=
  match Action e with Some a => a | None => "" end.
Definition GetPullRequest (e : t) : option PullRequest.t := PullRequest_ e.
Definition GetInstallation (e : t) : option Installation.t := Installation_ e.
End PullRequestEvent.

Definition GetInstallationIDFromEvent (e : PullRequestEvent.t) : Z :=
  Installation.GetID (PullRequestEvent.GetInstallation e).

Definition Handles : list string := ["pull_request"%string].

(** [Handle].  The event is a value, not a pointer: the decoder fills it. *)
Definition Handle (json_Unmarshal : string -> result PullRequestEvent.t)
  (h : PRBranchUpdateHandler) (eventType deliveryID : string)
  (payload : string) : Api error :=
  match json_Unmarshal payload with
  | Err err =>
      ret (Some (errors.Wrap err "failed to parse pull request event payload"))
  | Ok event =>
      let prNum := PullRequest.GetNumber (PullRequestEvent.GetPullRequest event) in
      let installationID := GetInstallationIDFromEvent event in
      let repoOwner :=
        User.GetLogin (Repository.GetOwner (PullRequestEvent.Repo event)) in
      let repoName := Repository.GetName (PullRequestEvent.Repo event) in
      let headSha :=
        PullRequestBranch.GetSHA
          (PullRequest.GetHead (PullRequestEvent.GetPullRequest event)) in
      let baseRef :=
        PullRequestBranch.GetRef
          (PullRequest.GetBase (PullRequestEvent.GetPullRequest event)) in
      if String.eqb (PullRequestEvent.GetAction event) "opened" then ret None
      else
        match NewInstallationClient h installationID with
        | Err err => ret (Some err)
        | Ok client =>
            '(baseRepo, err) <-
               client_GetBranch client repoOwner repoName baseRef true ;;
            match err with
            | Some e => ret (Some e)
            | None =>
                let baseSha :=
                  RepositoryCommit.GetSHA (Branch.GetCommit baseRepo) in
                '(commitComparison, _) <-
                   client_CompareCommits client repoOwner repoName
                     baseSha headSha ;;
                if (CommitsComparison.GetBehindBy commitComparison >=? 1)%Z
                then
                  '(updateResponse, err) <-
                     client_UpdateBranch client repoOwner repoName prNum ;;
                  match err with
                  | Some e =>
                      if String.eqb (errors.Error e) job_scheduled then
                        let msg :=
                          (preamble h ++ LF ++ LF ++
                           PullRequestBranchUpdateResponse.GetMessage
                             updateResponse)%string in
                        _ <- client_CreateComment client repoOwner repoName
                               prNum msg ;;
                        ret None
                      else ret (Some e)
                  | None => ret None
                  end
                else ret None
            end
        end
  end.

End PullRequestHandler.

End Earlier.




Definition event_owner (event : Earlier.PullRequestHandler.PullRequestEvent.t)
  : string :=
  User.GetLogin
    (Earlier.PullRequestHandler.Repository.GetOwner
       (Earlier.PullRequestHandler.PullRequestEvent.Repo event)).

Definition event_repo (event : Earlier.PullRequestHandler.PullRequestEvent.t)
  : string :=
  Earlier.PullRequestHandler.Repository.GetName
    (Earlier.PullRequestHandler.PullRequestEvent.Repo event).

Definition event_number (event : Earlier.PullRequestHandler.PullRequestEvent.t)
  : Z :=
  Earlier.PullRequestHandler.PullRequest.GetNumber
    (Earlier.PullRequestHandler.PullRequestEvent.GetPullRequest event).

Definition event_branch_call
  (event : Earlier.PullRequestHandler.PullRequestEvent.t) : Earlier.Call :=
  Earlier.Repositories_GetBranch (event_owner event) (event_repo event)
    (Earlier.PullRequestHandler.PullRequestBranch.GetRef
       (Earlier.PullRequestHandler.PullRequest.GetBase
          (Earlier.PullRequestHandler.PullRequestEvent.GetPullRequest event)))
    true.

Definition event_compare_call
  (event : Earlier.PullRequestHandler.PullRequestEvent.t)
  (baseRepo : option Earlier.Branch.t) : Earlier.Call :=
  Earlier.Repositories_CompareCommits (event_owner event) (event_repo event)
    (Earlier.RepositoryCommit.GetSHA (Earlier.Branch.GetCommit baseRepo))
    (Earlier.PullRequestHandler.PullRequestBranch.GetSHA
       (Earlier.PullRequestHandler.PullRequest.GetHead
          (Earlier.PullRequestHandler.PullRequestEvent.GetPullRequest event))).

Definition event_update_call
  (event : Earlier.PullRequestHandler.PullRequestEvent.t) : Earlier.Call :=
  Earlier.PullRequests_UpdateBranch (event_owner event) (event_repo event)
    (event_number event).

Definition event_comment_call
  (event : Earlier.PullRequestHandler.PullRequestEvent.t) (body : string)
  : Earlier.Call :=
  Earlier.Issues_CreateComment (event_owner event) (event_repo event)
    (event_number event) body.

(** What the platform of the earlier handlers answers to a call, given the
    calls made before. *)
Definition earlier_error (client : Earlier.Client.t)
  (hist : list Earlier.Call) (c : Earlier.Call) : error :=
  match c with
  | Earlier.Repositories_GetBranch o r b f =>
      snd (Earlier.Client.GetBranch client hist o r b f)
  | Earlier.PullRequests_List o r s =>
      snd (Earlier.Client.List_ client hist o r s)
  | Earlier.Repositories_CompareCommits o r b hd =>
      snd (Earlier.Client.CompareCommits client hist o r b hd)
  | Earlier.PullRequests_UpdateBranch o r n =>
      snd (Earlier.Client.UpdateBranch client hist o r n)
  | Earlier.Issues_CreateComment o r n b =>
      Earlier.Client.CreateComment client hist o r n b
  end.

(** A platform for the earlier handlers, over the same repository. *)
Module EarlierFixture.

Definition main_branch : option Earlier.Branch.t * error :=
  (Some (Earlier.Branch.mk (Some "main")
           (Some (Earlier.RepositoryCommit.mk (Some "abc123")))), None).

Definition mock_client
  (branch : option Earlier.Branch.t * error)
  (compare : string -> option CommitsComparison.t * error)
  (update : Z -> option PullRequestBranchUpdateResponse.t * error)
  (comment : Z -> error) : Earlier.Client.t :=
  Earlier.Client.mk
    (fun _ _ _ _ _ => branch)
    (fun _ _ _ _ => ([Fixture.pr1; Fixture.pr2], None))
    (fun _ _ _ _ head => compare head)
    (fun _ _ _ number => update number)
    (fun _ _ _ number _ => comment number).

Definition handler (client : Earlier.Client.t)
  : Earlier.PRBranchUpdateHandler :=
  {| Earlier.NewInstallationClient := fun installationID =>
       if (installationID =? 123456)%Z then Ok client
       else Err (errors.New "could not create installation client");
     Earlier.preamble := "Auto-update:" |}.

Definition no_client : Earlier.PRBranchUpdateHandler :=
  {| Earlier.NewInstallationClient := fun _ => Err Fixture.forbidden;
     Earlier.preamble := "Auto-update:" |}.

(** Everything is behind; every update fails on a conflict. *)
Definition conflict_client (comment : error) : Earlier.Client.t :=
  mock_client main_branch (fun _ => Fixture.behind 3)
    (fun _ => (None, Some Fixture.merge_conflict)) (fun _ => comment).

(** Everything is behind; every update is scheduled on the platform's side. *)
Definition scheduled_client (comment : error) : Earlier.Client.t :=
  mock_client main_branch (fun _ => Fixture.behind 3)
    (fun _ => Fixture.scheduled) (fun _ => comment).

(** The branch cannot be read. *)
Definition branchless_client : Earlier.Client.t :=
  mock_client (None, Some Fixture.not_found) (fun _ => Fixture.behind 3)
    (fun _ => Fixture.updated) (fun _ => None).

(** Pull request #7 of acme/widgets, from feature-a into main. *)
Definition pull_request_event (action : string)
  : Earlier.PullRequestHandler.PullRequestEvent.t :=
  Earlier.PullRequestHandler.PullRequestEvent.mk (Some action)
    (Some (Earlier.PullRequestHandler.PullRequest.mk (Some 7%Z)
             (Some (Earlier.PullRequestHandler.PullRequestBranch.mk
                      (Some "feature-a") (Some "def456")))
             (Some (Earlier.PullRequestHandler.PullRequestBranch.mk
                      (Some "main") None))))
    (Some (Earlier.PullRequestHandler.Repository.mk (Some "widgets")
             (Some (User.mk (Some "acme")))))
    (Some (Installation.mk (Some 123456%Z))).

Definition decode_pull_request (payload : string)
  : result Earlier.PullRequestHandler.PullRequestEvent.t :=
  if String.eqb payload "pull_request opened"
  then Ok (pull_request_event "opened")
  else if String.eqb payload "pull_request synchronize"
  then Ok (pull_request_event "synchronize")
  else Err (errors.New "unexpected end of JSON input").

End EarlierFixture.

(** * Properties *)

(** ** [strings.ToLower] *)

Lemma toLowerByte_not_upper (c : ascii) :
  strings.isUpperByte (strings.toLowerByte c) = false.
Proof.
  destruct c as [[] [] [] [] [] [] [] []]; reflexivity.
Qed.

Lemma ToLower_no_upper (s : string) :
  strings.hasUpper (strings.ToLower s) = false.
Proof.
  induction s as [|c s IH]; simpl.
  - reflexivity.
  - now rewrite toLowerByte_not_upper, IH.
Qed.

Lemma toLowerByte_fixed (c : ascii) :
  strings.isUpperByte c = false -> strings.toLowerByte c = c.
Proof.
  unfold strings.toLowerByte. now intros ->.
Qed.

Lemma ToLower_fixed (s : string) :
  strings.hasUpper s = false -> strings.ToLower s = s.
Proof.
  induction s as [|c s IH]; simpl; intros H.
  - reflexivity.
  - apply orb_false_iff in H as [Hc Hs].
    now rewrite (toLowerByte_fixed c Hc), (IH Hs).
Qed.

Lemma ToLower_idempotent (s : string) :
  strings.ToLower (strings.ToLower s) = strings.ToLower s.
Proof.
  apply ToLower_fixed, ToLower_no_upper.
Qed.


(** ** The label filter *)

Lemma contains_true_iff (prLabels : list (option Label.t)) (label : string) :
  contains prLabels label = true <->
  exists prLabel, In prLabel prLabels /\
                  strings.ToLower (Label.GetName prLabel) = label.
Proof.
  induction prLabels as [|p ps IH]; simpl.
  - split; [discriminate | intros (x & [] & _)].
  - destruct (String.eqb_spec (strings.ToLower (Label.GetName p)) label) as [E|N].
    + split; [intros _; exists p; auto | reflexivity].
    + rewrite IH. split.
      * intros (x & Hin & Hx). exists x; auto.
      * intros (x & [<-|Hin] & Hx); [contradiction | exists x; auto].
Qed.

Lemma contains_false_iff (prLabels : list (option Label.t)) (label : string) :
  contains prLabels label = false <->
  forall prLabel, In prLabel prLabels ->
                  strings.ToLower (Label.GetName prLabel) <> label.
Proof.
  rewrite <- not_true_iff_false, contains_true_iff. split.
  - intros H x Hin Hx. apply H. exists x; auto.
  - intros H (x & Hin & Hx). exact (H x Hin Hx).
Qed.

Lemma hasAllLabels_true_iff (labels : list string)
  (prLabels : list (option Label.t)) :
  hasAllLabels labels prLabels = true <->
  forall label, In label labels -> contains prLabels label = true.
Proof.
  induction labels as [|l ls IH]; simpl.
  - split; [intros _ x [] | reflexivity].
  - destruct (contains prLabels l) eqn:E; simpl.
    + rewrite IH. split.
      * intros H x [<-|Hin]; auto.
      * intros H x Hin. apply H. auto.
    + split; [discriminate|].
      intros H. rewrite <- E. apply H. auto.
Qed.

Lemma hasAllLabels_false_of (labels : list string)
  (prLabels : list (option Label.t)) (label : string) :
  In label labels -> contains prLabels label = false ->
  hasAllLabels labels prLabels = false.
Proof.
  intros Hin Hc. apply not_true_iff_false. intros H.
  rewrite hasAllLabels_true_iff in H. specialize (H label Hin). congruence.
Qed.

(** A label missing from the pull request, letter case apart, is not found by
    [contains]. *)
Lemma missing_not_contained (label : string)
  (prLabels : list (option Label.t)) :
  missing label prLabels -> contains prLabels label = false.
Proof.
  intros Hmiss. apply contains_false_iff. intros p Hin Heq.
  apply (Hmiss p Hin). now rewrite <- Heq, ToLower_idempotent.
Qed.

(** With a lower-case configured label, [contains] is the comparison letter
    case apart. *)
Lemma contains_lowercase_label (label : string)
  (prLabels : list (option Label.t)) :
  strings.hasUpper label = false ->
  (contains prLabels label = true <->
   exists prLabel, In prLabel prLabels /\
     strings.ToLower (Label.GetName prLabel) = strings.ToLower label).
Proof.
  intros Hlow. now rewrite contains_true_iff, (ToLower_fixed label Hlow).
Qed.

(** ** One turn of the loop *)

Lemma gate_open_hasLabels (h : PRBranchUpdateHandler) (pr : PullRequest.t) :
  gate_open h pr ->
  (if (0 <? length (labels h))%nat
   then hasAllLabels (labels h) (PullRequest.Labels pr) else true) = true.
Proof.
  intros [Hnil | Hall].
  - now rewrite Hnil.
  - rewrite Hall. now destruct (0 <? length (labels h))%nat.
Qed.

Lemma gate_shut_hasLabels (h : PRBranchUpdateHandler) (pr : PullRequest.t) :
  ~ gate_open h pr ->
  (if (0 <? length (labels h))%nat
   then hasAllLabels (labels h) (PullRequest.Labels pr) else true) = false.
Proof.
  unfold gate_open. intros Hshut.
  destruct (labels h) as [|l ls] eqn:E.
  - exfalso. apply Hshut. now left.
  - cbn [length Nat.ltb Nat.leb]. apply not_true_iff_false. intros H.
    apply Hshut. now right.
Qed.

Lemma gate_open_dec (h : PRBranchUpdateHandler) (pr : PullRequest.t) :
  gate_open h pr \/ ~ gate_open h pr.
Proof.
  unfold gate_open. destruct (labels h) as [|l ls].
  - left. now left.
  - destruct (hasAllLabels (l :: ls) (PullRequest.Labels pr)).
    + left. now right.
    + right. intros [H|H]; discriminate.
Qed.

Ltac unfold_body :=
  unfold loop_body, client_CompareCommits, client_UpdateBranch,
    client_CreateComment, bind, ret, request;
  cbv beta.

Ltac unfold_answers :=
  unfold behindBy, compare_answer, update_answer, comment_answer,
    compare_call, update_call, comment_call, scheduled_body, failed_body in *.

Section Turn.

Variables (h : PRBranchUpdateHandler) (client : Client.t).
Variables (repoOwner repoName : string) (pr : PullRequest.t).
Variable hist : list Call.

Lemma loop_body_skipped :
  ~ gate_open h pr ->
  loop_body h client repoOwner repoName pr hist = (next_iteration, []).
Proof.
  intros Hshut. unfold_body.
  now rewrite (gate_shut_hasLabels h pr Hshut).
Qed.

Lemma loop_body_up_to_date :
  gate_open h pr ->
  (behindBy client repoOwner repoName pr hist < 1)%Z ->
  loop_body h client repoOwner repoName pr hist =
    (next_iteration, [compare_call repoOwner repoName pr]).
Proof.
  intros Hopen Hbehind. unfold_body. unfold_answers.
  rewrite (gate_open_hasLabels h pr Hopen). cbn [negb].
  destruct (Client.CompareCommits _ _ _ _ _ _) as [cmp cerr]. cbn [fst] in Hbehind.
  destruct (Z.geb_spec (CommitsComparison.GetBehindBy cmp) 1); [lia|].
  reflexivity.
Qed.

Lemma loop_body_updated :
  gate_open h pr ->
  (1 <= behindBy client repoOwner repoName pr hist)%Z ->
  snd (update_answer client repoOwner repoName pr hist) = None ->
  loop_body h client repoOwner repoName pr hist =
    (next_iteration,
     [compare_call repoOwner repoName pr; update_call repoOwner repoName pr]).
Proof.
  intros Hopen Hbehind Hupd. unfold_body. unfold_answers.
  rewrite (gate_open_hasLabels h pr Hopen). cbn [negb].
  destruct (Client.CompareCommits _ _ _ _ _ _) as [cmp cerr]. cbn [fst] in Hbehind.
  destruct (Z.geb_spec (CommitsComparison.GetBehindBy cmp) 1); [|lia].
  destruct (Client.UpdateBranch _ _ _ _ _) as [resp uerr]. cbn [snd] in Hupd.
  subst uerr. reflexivity.
Qed.

Lemma loop_body_scheduled (e : errors.t) :
  gate_open h pr ->
  (1 <= behindBy client repoOwner repoName pr hist)%Z ->
  snd (update_answer client repoOwner repoName pr hist) = Some e ->
  errors.Error e = job_scheduled ->
  loop_body h client repoOwner repoName pr hist =
    let body :=
      scheduled_body h (fst (update_answer client repoOwner repoName pr hist)) in
    (match comment_answer client repoOwner repoName pr hist body with
     | Some e' => return_ e'
     | None => next_iteration
     end,
     [compare_call repoOwner repoName pr; update_call repoOwner repoName pr;
      comment_call repoOwner repoName pr body]).
Proof.
  intros Hopen Hbehind Hupd Hmsg. unfold_body. unfold_answers.
  rewrite (gate_open_hasLabels h pr Hopen). cbn [negb].
  destruct (Client.CompareCommits _ _ _ _ _ _) as [cmp cerr]. cbn [fst] in Hbehind.
  destruct (Z.geb_spec (CommitsComparison.GetBehindBy cmp) 1); [|lia].
  destruct (Client.UpdateBranch _ _ _ _ _) as [resp uerr]. cbn [fst snd] in *.
  subst uerr. rewrite Hmsg, String.eqb_refl.
  destruct (Client.CreateComment _ _ _ _ _ _); reflexivity.
Qed.

Lemma loop_body_failed (e : errors.t) :
  gate_open h pr ->
  (1 <= behindBy client repoOwner repoName pr hist)%Z ->
  snd (update_answer client repoOwner repoName pr hist) = Some e ->
  errors.Error e <> job_scheduled ->
  loop_body h client repoOwner repoName pr hist =
    (match comment_answer client repoOwner repoName pr hist (failed_body e) with
     | Some e' => return_ e'
     | None => next_iteration
     end,
     [compare_call repoOwner repoName pr; update_call repoOwner repoName pr;
      comment_call repoOwner repoName pr (failed_body e)]).
Proof.
  intros Hopen Hbehind Hupd Hmsg. unfold_body. unfold_answers.
  rewrite (gate_open_hasLabels h pr Hopen). cbn [negb].
  destruct (Client.CompareCommits _ _ _ _ _ _) as [cmp cerr]. cbn [fst] in Hbehind.
  destruct (Z.geb_spec (CommitsComparison.GetBehindBy cmp) 1); [|lia].
  destruct (Client.UpdateBranch _ _ _ _ _) as [resp uerr]. cbn [fst snd] in *.
  subst uerr. apply String.eqb_neq in Hmsg. rewrite Hmsg.
  destruct (Client.CreateComment _ _ _ _ _ _); reflexivity.
Qed.

(** ** The loop *)

Lemma range_pullRequests_next (rest : list PullRequest.t) (calls : list Call) :
  loop_body h client repoOwner repoName pr hist = (next_iteration, calls) ->
  range_pullRequests h client repoOwner repoName (pr :: rest) hist =
    (fst (range_pullRequests h client repoOwner repoName rest (hist ++ calls)),
     calls ++
     snd (range_pullRequests h client repoOwner repoName rest (hist ++ calls))).
Proof.
  intros Hbody. cbn [range_pullRequests]. unfold bind at 1. rewrite Hbody.
  now destruct (range_pullRequests _ _ _ _ rest _).
Qed.

Lemma range_pullRequests_return (rest : list PullRequest.t)
  (calls : list Call) (e : errors.t) :
  loop_body h client repoOwner repoName pr hist = (return_ e, calls) ->
  range_pullRequests h client repoOwner repoName (pr :: rest) hist =
    (Some e, calls).
Proof.
  intros Hbody. cbn [range_pullRequests]. unfold bind at 1. rewrite Hbody.
  unfold ret. now rewrite app_nil_r.
Qed.

End Turn.

Lemma range_pullRequests_app (h : PRBranchUpdateHandler) (client : Client.t)
  (repoOwner repoName : string) (pre suf : list PullRequest.t) :
  forall (hist calls : list Call),
  range_pullRequests h client repoOwner repoName pre hist = (None, calls) ->
  range_pullRequests h client repoOwner repoName (pre ++ suf) hist =
    (fst (range_pullRequests h client repoOwner repoName suf (hist ++ calls)),
     calls ++
     snd (range_pullRequests h client repoOwner repoName suf (hist ++ calls))).
Proof.
  induction pre as [|p pre IH]; intros hist calls Hpre.
  - cbn in Hpre. injection Hpre as <-. rewrite app_nil_r. cbn [app].
    now destruct (range_pullRequests _ _ _ _ suf hist).
  - cbn [app]. 
    destruct (loop_body h client repoOwner repoName p hist) as [[|e] cs] eqn:Hb.
    + rewrite (range_pullRequests_next _ _ _ _ _ _ pre _ Hb) in Hpre.
      rewrite (range_pullRequests_next _ _ _ _ _ _ (pre ++ suf) _ Hb).
      destruct (range_pullRequests h client repoOwner repoName pre (hist ++ cs))
        as [r cs'] eqn:Hr.
      cbn [fst snd] in Hpre. injection Hpre as -> <-.
      rewrite (IH _ _ Hr). cbn [fst snd].
      now rewrite <- !app_assoc.
    + rewrite (range_pullRequests_return _ _ _ _ _ _ pre _ _ Hb) in Hpre.
      discriminate.
Qed.

(** A stale pull request that passed the gate: the comparison, one update
    call, and then at most a comment. *)
Lemma loop_body_stale (h : PRBranchUpdateHandler) (client : Client.t)
  (repoOwner repoName : string) (pr : PullRequest.t) (hist : list Call) :
  gate_open h pr ->
  (1 <= behindBy client repoOwner repoName pr hist)%Z ->
  exists f comments,
    loop_body h client repoOwner repoName pr hist =
      (f, compare_call repoOwner repoName pr
          :: update_call repoOwner repoName pr :: comments) /\
    filter isUpdateBranch comments = [] /\
    (snd (update_answer client repoOwner repoName pr hist) = None ->
     f = next_iteration /\ comments = []).
Proof.
  intros Hopen Hbehind.
  destruct (snd (update_answer client repoOwner repoName pr hist))
    as [e|] eqn:Hupd.
  - destruct (String.eqb_spec (errors.Error e) job_scheduled) as [Hs|Hs].
    + rewrite (loop_body_scheduled _ _ _ _ _ _ e Hopen Hbehind Hupd Hs).
      cbv zeta. eexists _, [_]. repeat split; discriminate.
    + rewrite (loop_body_failed _ _ _ _ _ _ e Hopen Hbehind Hupd Hs).
      eexists _, [_]. repeat split; discriminate.
  - rewrite (loop_body_updated _ _ _ _ _ _ Hopen Hbehind Hupd).
    exists next_iteration, []. repeat split.
Qed.

(** ** The handler *)

Section HandleRun.

Variable json_Unmarshal : string -> result (option PushEvent.t).
Variable h : PRBranchUpdateHandler.
Variables eventType deliveryID payload : string.
Variable hist0 : list Call.
Variable client : Client.t.
Variables repoOwner repoName : string.
Variables (pre : list PullRequest.t) (pr : PullRequest.t)
          (rest : list PullRequest.t).
Variable before : list Call.

Hypothesis Hreach :
  reaches json_Unmarshal h payload hist0 client repoOwner repoName
    pre pr rest before.

Lemma Handle_reaches :
  Handle json_Unmarshal h eventType deliveryID payload hist0 =
    (fst (range_pullRequests h client repoOwner repoName (pr :: rest)
            (hist0 ++ before)),
     before ++
     snd (range_pullRequests h client repoOwner repoName (pr :: rest)
            (hist0 ++ before))).
Proof.
  destruct Hreach as
    (ev & calls_pre & Hdec & Hcl & Ho & Hn & Href & Hlist & Hpre & Hbefore).
  unfold Handle. rewrite Hdec, Hcl, Href, String.eqb_refl. cbn [negb].
  rewrite <- Ho, <- Hn. unfold bind at 1, client_List, request.
  rewrite Hlist, (range_pullRequests_app _ _ _ _ pre (pr :: rest) _ _ Hpre).
  subst before. cbn [fst snd]. now rewrite <- app_assoc.
Qed.

Lemma Handle_proceeds (calls : list Call) :
  loop_body h client repoOwner repoName pr (hist0 ++ before)
    = (next_iteration, calls) ->
  proceeds_to json_Unmarshal h eventType deliveryID payload hist0 client
    repoOwner repoName rest (before ++ calls).
Proof.
  intros Hbody. unfold proceeds_to.
  rewrite Handle_reaches, (range_pullRequests_next _ _ _ _ _ _ rest _ Hbody).
  cbn [fst snd]. now rewrite !app_assoc.
Qed.

Lemma Handle_returns (calls : list Call) (e : errors.t) :
  loop_body h client repoOwner repoName pr (hist0 ++ before)
    = (return_ e, calls) ->
  Handle json_Unmarshal h eventType deliveryID payload hist0
    = (Some e, before ++ calls).
Proof.
  intros Hbody.
  now rewrite Handle_reaches, (range_pullRequests_return _ _ _ _ _ _ rest _ _ Hbody).
Qed.

End HandleRun.

(** ** What the handler does with one pull request *)

Section Claims.

Variable json_Unmarshal : string -> result (option PushEvent.t).
Variable h : PRBranchUpdateHandler.
Variables eventType deliveryID payload : string.
Variable hist0 : list Call.
Variable client : Client.t.
Variables repoOwner repoName : string.
Variables (pre : list PullRequest.t) (pr : PullRequest.t)
          (rest : list PullRequest.t).
Variable before : list Call.

Abbreviation reached :=
  (reaches json_Unmarshal h payload hist0 client repoOwner repoName
     pre pr rest before).
Abbreviation proceeds issued :=
  (proceeds_to json_Unmarshal h eventType deliveryID payload hist0 client
     repoOwner repoName rest issued).
Abbreviation turn := (loop_body h client repoOwner repoName pr (hist0 ++ before)).
Abbreviation compare := (compare_call repoOwner repoName pr).
Abbreviation update := (update_call repoOwner repoName pr).
Abbreviation comment body := (comment_call repoOwner repoName pr body).
Abbreviation behind := (behindBy client repoOwner repoName pr (hist0 ++ before)).
Abbreviation update_result :=
  (update_answer client repoOwner repoName pr (hist0 ++ before)).
Abbreviation comment_result body :=
  (comment_answer client repoOwner repoName pr (hist0 ++ before) body).

(** C1, as the code has it: when the update of a pull request fails with an
    error whose message is not the job-scheduled sentinel, the handler issues
    one comment whose body is "Failed to update pull request. Error: "
    followed by the error text.  If that comment is refused, the handler
    returns the comment's error and issues no further call; otherwise the
    update error is not returned and the handler goes on with the remaining
    pull requests. *)
Theorem failed_update_is_commented (e : errors.t) :
  reached ->
  gate_open h pr ->
  (1 <= behind)%Z ->
  snd update_result = Some e ->
  errors.Error e <> job_scheduled ->
  let body :=
    ("Failed to update pull request. Error: " ++ errors.Error e)%string in
  let calls := [compare; update; comment body] in
  snd turn = calls /\
  match comment_result body with
  | Some e' =>
      Handle json_Unmarshal h eventType deliveryID payload hist0
        = (Some e', before ++ calls)
  | None => proceeds (before ++ calls)
  end.
Proof.
  intros Hreach Hopen Hbehind Hupd Hmsg body calls.
  pose proof (loop_body_failed _ _ _ _ _ _ e Hopen Hbehind Hupd Hmsg) as Hbody.
  fold body in Hbody. split.
  - now rewrite Hbody.
  - unfold failed_body in Hbody. fold body in Hbody.
    destruct (comment_result body) as [e'|].
    + eapply Handle_returns; eassumption.
    + eapply Handle_proceeds; eassumption.
Qed.

(** C2, as the code has it: the error of the commit comparison is discarded.
    When the comparison of a pull request fails, leaving no comparison to
    read, the count of commits behind reads as 0: the handler issues no update
    and no comment for that pull request, does not return the error, and goes
    on with the remaining pull requests. *)
Theorem failed_comparison_is_discarded (e : errors.t) :
  reached ->
  gate_open h pr ->
  compare_answer client repoOwner repoName pr (hist0 ++ before)
    = (None, Some e) ->
  turn = (next_iteration, [compare]) /\
  proceeds (before ++ [compare]).
Proof.
  intros Hreach Hopen Hcmp.
  assert (Hbody : turn = (next_iteration, [compare])).
  { apply loop_body_up_to_date; [exact Hopen|].
    unfold behindBy. rewrite Hcmp. cbn. lia. }
  split; [exact Hbody|].
  eapply Handle_proceeds; eassumption.
Qed.

(** C4: a pull request is updated exactly when it passed the label gate and
    its comparison counts at least one commit behind; with a count of 0 the
    handler issues no update and no comment for it and goes on with the
    remaining pull requests. *)
Theorem up_to_date_is_left_alone :
  reached ->
  (existsb isUpdateBranch (snd turn) = true <->
   gate_open h pr /\ (behind >= 1)%Z) /\
  (behind = 0%Z ->
   exists calls,
     turn = (next_iteration, calls) /\
     filter isUpdateBranch calls = [] /\
     filter isCreateComment calls = [] /\
     proceeds (before ++ calls)).
Proof.
  intros Hreach. split.
  - destruct (gate_open_dec h pr) as [Hopen|Hshut].
    + destruct (Z_lt_le_dec behind 1) as [Hlt|Hge].
      * rewrite (loop_body_up_to_date _ _ _ _ _ _ Hopen Hlt). cbn.
        split; [discriminate | lia].
      * destruct (loop_body_stale _ _ _ _ _ _ Hopen Hge)
          as (f & comments & Hbody & _ & _).
        rewrite Hbody. cbn. split; [intros _; split; [exact Hopen | lia] | reflexivity].
    + rewrite (loop_body_skipped _ _ _ _ _ _ Hshut). cbn.
      split; [discriminate | intros [Hopen _]; contradiction].
  - intros Hzero. destruct (gate_open_dec h pr) as [Hopen|Hshut].
    + exists [compare].
      assert (Hbody : turn = (next_iteration, [compare]))
        by (apply loop_body_up_to_date; [exact Hopen | lia]).
      repeat split; try reflexivity; try exact Hbody.
      eapply Handle_proceeds; eassumption.
    + exists [].
      pose proof (loop_body_skipped h client repoOwner repoName pr
                    (hist0 ++ before) Hshut) as Hbody.
      repeat split; try reflexivity; try exact Hbody.
      eapply Handle_proceeds; eassumption.
Qed.

(** C6: a pull request that misses a configured label (none of its label
    names equals it, letter case apart) is skipped before the comparison: the
    handler issues no call at all for it and goes on with the remaining pull
    requests.  Stated for ASCII names, the required label's and the pull
    request's, where [strings.ToLower] is Go's. *)
Theorem unlabelled_is_skipped (label : string) :
  reached ->
  In label (labels h) ->
  strings.isASCII label = true ->
  ascii_names (PullRequest.Labels pr) ->
  missing label (PullRequest.Labels pr) ->
  turn = (next_iteration, []) /\
  proceeds before.
Proof.
  intros Hreach Hin _ _ Hmiss.
  assert (Hbody : turn = (next_iteration, [])).
  { apply loop_body_skipped. intros [Hnil | Hall].
    - rewrite Hnil in Hin. contradiction.
    - rewrite (hasAllLabels_false_of _ _ label Hin
                 (missing_not_contained _ _ Hmiss)) in Hall.
      discriminate. }
  split; [exact Hbody|].
  pose proof (Handle_proceeds json_Unmarshal h eventType deliveryID payload
                hist0 client repoOwner repoName pre pr rest before
                Hreach [] Hbody) as Hp.
  now rewrite app_nil_r in Hp.
Qed.

(** C7: when the update of a pull request fails with the message "job
    scheduled on GitHub side; try again later", the handler issues exactly one
    comment for it, whose body is the preamble, an empty line and the message
    of the update response; once that comment is posted the handler goes on
    with the remaining pull requests, and the update error is not returned. *)
Theorem scheduled_update_is_commented (e : errors.t) :
  reached ->
  gate_open h pr ->
  (1 <= behind)%Z ->
  snd update_result = Some e ->
  errors.Error e = "job scheduled on GitHub side; try again later" ->
  let body :=
    (preamble h ++ LF ++ LF ++
     PullRequestBranchUpdateResponse.GetMessage (fst update_result))%string in
  snd turn = [compare; update; comment body] /\
  filter isCreateComment (snd turn) = [comment body] /\
  (comment_result body = None ->
   turn = (next_iteration, [compare; update; comment body]) /\
   proceeds (before ++ [compare; update; comment body])).
Proof.
  intros Hreach Hopen Hbehind Hupd Hmsg body.
  pose proof (loop_body_scheduled _ _ _ _ _ _ e Hopen Hbehind Hupd Hmsg) as Hbody.
  cbv zeta in Hbody. unfold scheduled_body in Hbody. fold body in Hbody.
  split; [now rewrite Hbody|]. split; [now rewrite Hbody|].
  intros Hposted. rewrite Hposted in Hbody. split; [exact Hbody|].
  eapply Handle_proceeds; eassumption.
Qed.

(** C8: when the comment that reports a scheduled update is refused, the
    handler returns the comment's error at once: no call is issued for the
    remaining pull requests. *)
Theorem refused_comment_is_fatal (e e' : errors.t) :
  reached ->
  gate_open h pr ->
  (1 <= behind)%Z ->
  snd update_result = Some e ->
  errors.Error e = job_scheduled ->
  comment_result (scheduled_body h (fst update_result)) = Some e' ->
  let calls :=
    [compare; update; comment (scheduled_body h (fst update_result))] in
  turn = (return_ e', calls) /\
  Handle json_Unmarshal h eventType deliveryID payload hist0
    = (Some e', before ++ calls).
Proof.
  intros Hreach Hopen Hbehind Hupd Hmsg Hrefused calls.
  pose proof (loop_body_scheduled _ _ _ _ _ _ e Hopen Hbehind Hupd Hmsg) as Hbody.
  cbv zeta in Hbody. rewrite Hrefused in Hbody. fold calls in Hbody.
  split; [exact Hbody|].
  eapply Handle_returns; eassumption.
Qed.

(** Past the code's own gate (no label configured, or [hasAllLabels] answers
    true), a pull request that is at least one commit behind gets exactly one
    update call; when that update succeeds the handler issues no comment for
    it and goes on with the remaining ones. *)
Theorem stale_is_updated_once :
  reached ->
  gate_open h pr ->
  (behind >= 1)%Z ->
  filter isUpdateBranch (snd turn) = [update] /\
  (snd update_result = None ->
   turn = (next_iteration, [compare; update]) /\
   filter isCreateComment (snd turn) = [] /\
   proceeds (before ++ [compare; update])).
Proof.
  intros Hreach Hopen Hbehind.
  assert (Hge : (1 <= behind)%Z) by lia.
  destruct (loop_body_stale _ _ _ _ _ _ Hopen Hge)
    as (f & comments & Hbody & Hnone & Hok).
  split.
  - rewrite Hbody. cbn. now rewrite Hnone.
  - intros Hupd. destruct (Hok Hupd) as [-> ->].
    split; [exact Hbody|]. split; [now rewrite Hbody|].
    eapply Handle_proceeds; eassumption.
Qed.

End Claims.

(** ** Pushes to another branch *)

Lemma Handle_decode_error (json_Unmarshal : string -> result (option PushEvent.t))
  (h : PRBranchUpdateHandler) (eventType deliveryID payload : string)
  (e : errors.t) (hist0 : list Call) :
  json_Unmarshal payload = Err e ->
  Handle json_Unmarshal h eventType deliveryID payload hist0 =
    (Some (errors.Wrap e "failed to parse push event payload"), []).
Proof.
  intros Hdec. unfold Handle. now rewrite Hdec.
Qed.

Lemma Handle_client_error (json_Unmarshal : string -> result (option PushEvent.t))
  (h : PRBranchUpdateHandler) (eventType deliveryID payload : string)
  (pushEvent : option PushEvent.t) (e : errors.t) (hist0 : list Call) :
  json_Unmarshal payload = Ok pushEvent ->
  NewInstallationClient h (githubapp.GetInstallationIDFromEvent pushEvent)
    = Err e ->
  Handle json_Unmarshal h eventType deliveryID payload hist0 = (Some e, []).
Proof.
  intros Hdec Hcl. unfold Handle. now rewrite Hdec, Hcl.
Qed.

(** C5: a push whose ref is not "refs/heads/" followed by the repository's
    default branch is ignored: once the payload is decoded and the
    installation client obtained, the handler returns nil without issuing any
    call, whatever calls were made before. *)
Theorem other_ref_is_ignored
  (json_Unmarshal : string -> result (option PushEvent.t))
  (h : PRBranchUpdateHandler) (eventType deliveryID payload : string)
  (pushEvent : option PushEvent.t) (client : Client.t) :
  json_Unmarshal payload = Ok pushEvent ->
  NewInstallationClient h (githubapp.GetInstallationIDFromEvent pushEvent)
    = Ok client ->
  PushEvent.GetRef pushEvent <>
    ("refs/heads/" ++
     PushEventRepository.GetDefaultBranch (PushEvent.GetRepo pushEvent))%string ->
  forall hist0 : list Call,
    Handle json_Unmarshal h eventType deliveryID payload hist0 = (None, []).
Proof.
  intros Hdec Hcl Href hist0. unfold Handle. rewrite Hdec, Hcl.
  apply String.eqb_neq in Href. now rewrite Href.
Qed.

(** ** Labels with upper-case letters *)

(** A lower-case configured label is found under any spelling of the pull
    request's label. *)
Example lowercase_label_matches :
  contains [Fixture.label "Approved To Merge"] "approved to merge" = true.
Proof. reflexivity. Qed.

(** C3, on the inputs of the repository's TestHasAllLabels: the configured
    labels are among the pull request's labels, spelled alike, and
    [hasAllLabels] answers false where the test expects true. *)
Theorem hasAllLabels_fails_its_test :
  contains Fixture.test_prLabels "Approved to Merge" = false /\
  hasAllLabels Fixture.test_configLabels Fixture.test_prLabels = false.
Proof.
  split; reflexivity.
Qed.

(** C9, on a pull request that carries the configured label, spelled alike,
    and is three commits behind: [hasAllLabels] answers false, so the handler
    issues no update call for it, nor any other call after the listing.  The
    defect is the one the repository's TestHasAllLabels meets: [contains]
    lower-cases the pull request's label name and not the configured label. *)
Theorem labelled_stale_is_not_updated :
  In (Fixture.label "Approved To Merge") (PullRequest.Labels Fixture.pr1) /\
  behindBy Spelling.behind_client "acme" "widgets" Fixture.pr1
    [Fixture.listing] = 3%Z /\
  hasAllLabels ["Approved To Merge"%string] (PullRequest.Labels Fixture.pr1)
    = false /\
  Fixture.deliver
    (Fixture.handler Spelling.behind_client "Auto-update:"
       ["Approved To Merge"%string])
    Fixture.push_main = (None, [Fixture.listing]).
Proof.
  split; [now left|]. repeat split.
Qed.



(** ** Runs on acme/widgets *)

Import Fixture.

Ltac reach pushEvent calls_pre :=
  exists pushEvent, calls_pre; repeat split.

(** No label filter, #1 up to date, #2 three commits behind: #1 is only
    compared, #2 gets one update call and no comment. *)
Example plain_delivery :
  deliver (handler plain_client "Auto-update:" []) push_main =
    (None, [listing; compare1; compare2; update2]).
Proof. reflexivity. Qed.

(** The same with the update of #2 scheduled on the platform's side. *)
Example scheduled_delivery :
  deliver (handler (scheduled_client None) "Auto-update:" []) push_main =
    (None,
     [listing; compare1; compare2; update2;
      comment_call "acme" "widgets" pr2
        ("Auto-update:" ++ LF ++ LF ++ "Updating pull request branch.")%string]).
Proof. reflexivity. Qed.

(** Required label "ready", #2 labelled "wip": no comparison for #2. *)
Example filtered_delivery :
  deliver (handler plain_client "Auto-update:" ["ready"]) push_main =
    (None, [listing]).
Proof. reflexivity. Qed.

(** A payload that does not decode. *)
Example undecodable_delivery :
  deliver (handler plain_client "Auto-update:" []) "" =
    (Some (errors.Wrap (errors.New "unexpected end of JSON input")
             "failed to parse push event payload"), []).
Proof. reflexivity. Qed.

(** A failed update that is not the job-scheduled one: the failure is
    commented on #1, #2 is then compared and updated, and the delivery ends
    with nil, not with the update's error. *)
Lemma failed_update_returns_nil :
  snd (update_answer conflict_client "acme" "widgets" pr1 [listing])
    = Some merge_conflict /\
  errors.Error merge_conflict <> job_scheduled /\
  deliver (handler conflict_client "Auto-update:" []) push_main =
    (None,
     [listing; compare1; update1;
      comment_call "acme" "widgets" pr1
        "Failed to update pull request. Error: merge conflict";
      compare2; update2]) /\
  fst (deliver (handler conflict_client "Auto-update:" []) push_main)
    <> Some merge_conflict.
Proof.
  split; [reflexivity|]. split; [now apply String.eqb_neq|].
  split; [reflexivity | discriminate].
Qed.

Lemma failed_update_is_commented_witness :
  snd (loop_body (handler conflict_client "Auto-update:" []) conflict_client
         "acme" "widgets" pr1 [listing])
    = [compare1; update1;
       comment_call "acme" "widgets" pr1
         "Failed to update pull request. Error: merge conflict"] /\
  proceeds_to json_Unmarshal (handler conflict_client "Auto-update:" [])
    "push" "delivery-1" push_main [] conflict_client "acme" "widgets" [pr2]
    [listing; compare1; update1;
     comment_call "acme" "widgets" pr1
       "Failed to update pull request. Error: merge conflict"].
Proof.
  apply (failed_update_is_commented json_Unmarshal
           (handler conflict_client "Auto-update:" []) "push" "delivery-1"
           push_main [] conflict_client "acme" "widgets" [] pr1 [pr2]
           [listing] merge_conflict).
  - reach (event "refs/heads/main") (@nil Call).
  - left. reflexivity.
  - vm_compute. discriminate.
  - reflexivity.
  - now apply String.eqb_neq.
Defined.

(** A failed comparison: #1 is left alone, #2 is compared and updated, and
    the delivery ends with nil, not with the comparison's error. *)
Lemma failed_comparison_returns_nil :
  compare_answer compare_fails_client "acme" "widgets" pr1 [listing]
    = (None, Some not_found) /\
  deliver (handler compare_fails_client "Auto-update:" []) push_main =
    (None, [listing; compare1; compare2; update2]) /\
  fst (deliver (handler compare_fails_client "Auto-update:" []) push_main)
    <> Some not_found.
Proof.
  split; [reflexivity|]. split; [reflexivity | discriminate].
Qed.

Lemma failed_comparison_is_discarded_witness :
  loop_body (handler compare_fails_client "Auto-update:" [])
    compare_fails_client "acme" "widgets" pr1 [listing]
    = (next_iteration, [compare1]) /\
  proceeds_to json_Unmarshal (handler compare_fails_client "Auto-update:" [])
    "push" "delivery-1" push_main [] compare_fails_client "acme" "widgets"
    [pr2] [listing; compare1].
Proof.
  apply (failed_comparison_is_discarded json_Unmarshal
           (handler compare_fails_client "Auto-update:" []) "push"
           "delivery-1" push_main [] compare_fails_client "acme" "widgets"
           [] pr1 [pr2] [listing] not_found).
  - reach (event "refs/heads/main") (@nil Call).
  - left. reflexivity.
  - reflexivity.
Defined.

Lemma up_to_date_is_left_alone_witness :
  exists calls,
    loop_body (handler plain_client "Auto-update:" []) plain_client
      "acme" "widgets" pr1 [listing] = (next_iteration, calls) /\
    filter isUpdateBranch calls = [] /\
    filter isCreateComment calls = [] /\
    proceeds_to json_Unmarshal (handler plain_client "Auto-update:" [])
      "push" "delivery-1" push_main [] plain_client "acme" "widgets" [pr2]
      ([listing] ++ calls).
Proof.
  apply (up_to_date_is_left_alone json_Unmarshal
           (handler plain_client "Auto-update:" []) "push" "delivery-1"
           push_main [] plain_client "acme" "widgets" [] pr1 [pr2] [listing]).
  - reach (event "refs/heads/main") (@nil Call).
  - reflexivity.
Defined.

Lemma other_ref_is_ignored_witness :
  deliver (handler plain_client "Auto-update:" []) push_feature = (None, []).
Proof.
  apply (other_ref_is_ignored json_Unmarshal
           (handler plain_client "Auto-update:" []) "push" "delivery-1"
           push_feature (event "refs/heads/feature-branch") plain_client).
  - reflexivity.
  - reflexivity.
  - now apply String.eqb_neq.
Defined.

Lemma unlabelled_is_skipped_witness :
  loop_body (handler plain_client "Auto-update:" ["approved to merge"])
    plain_client "acme" "widgets" pr2 [listing; compare1]
    = (next_iteration, []) /\
  proceeds_to json_Unmarshal
    (handler plain_client "Auto-update:" ["approved to merge"])
    "push" "delivery-1" push_main [] plain_client "acme" "widgets" []
    [listing; compare1].
Proof.
  apply (unlabelled_is_skipped json_Unmarshal
           (handler plain_client "Auto-update:" ["approved to merge"])
           "push" "delivery-1" push_main [] plain_client "acme" "widgets"
           [pr1] pr2 [] [listing; compare1] "approved to merge").
  - reach (event "refs/heads/main") [compare1].
  - left. reflexivity.
  - reflexivity.
  - intros prLabel [<- | []]. reflexivity.
  - intros prLabel [<- | []]. now apply String.eqb_neq.
Defined.

Lemma scheduled_update_is_commented_witness :
  let body :=
    ("Auto-update:" ++ LF ++ LF ++ "Updating pull request branch.")%string in
  let calls := [compare2; update2; comment_call "acme" "widgets" pr2 body] in
  snd (loop_body (handler (scheduled_client None) "Auto-update:" [])
         (scheduled_client None) "acme" "widgets" pr2 [listing; compare1])
    = calls /\
  filter isCreateComment calls = [comment_call "acme" "widgets" pr2 body] /\
  proceeds_to json_Unmarshal (handler (scheduled_client None) "Auto-update:" [])
    "push" "delivery-1" push_main [] (scheduled_client None) "acme" "widgets"
    [] ([listing; compare1] ++ calls).
Proof.
  destruct (scheduled_update_is_commented json_Unmarshal
              (handler (scheduled_client None) "Auto-update:" [])
              "push" "delivery-1" push_main [] (scheduled_client None)
              "acme" "widgets" [pr1] pr2 [] [listing; compare1]
              (errors.New job_scheduled))
    as (Hcalls & Hone & Hnext).
  - reach (event "refs/heads/main") [compare1].
  - left. reflexivity.
  - vm_compute. discriminate.
  - reflexivity.
  - reflexivity.
  - split; [exact Hcalls|]. split; [reflexivity|].
    exact (proj2 (Hnext eq_refl)).
Defined.

Lemma refused_comment_is_fatal_witness :
  deliver (handler (scheduled_client (Some forbidden)) "Auto-update:" [])
    push_main =
    (Some forbidden,
     [listing; compare1; compare2; update2;
      comment_call "acme" "widgets" pr2
        ("Auto-update:" ++ LF ++ LF ++ "Updating pull request branch.")%string]).
Proof.
  apply (refused_comment_is_fatal json_Unmarshal
           (handler (scheduled_client (Some forbidden)) "Auto-update:" [])
           "push" "delivery-1" push_main [] (scheduled_client (Some forbidden))
           "acme" "widgets" [pr1] pr2 [] [listing; compare1]
           (errors.New job_scheduled) forbidden).
  - reach (event "refs/heads/main") [compare1].
  - left. reflexivity.
  - vm_compute. discriminate.
  - reflexivity.
  - reflexivity.
  - reflexivity.
Defined.

Lemma stale_is_updated_once_witness :
  filter isUpdateBranch
    (snd (loop_body (handler plain_client "Auto-update:" []) plain_client
            "acme" "widgets" pr2 [listing; compare1])) = [update2] /\
  proceeds_to json_Unmarshal (handler plain_client "Auto-update:" [])
    "push" "delivery-1" push_main [] plain_client "acme" "widgets" []
    [listing; compare1; compare2; update2].
Proof.
  destruct (stale_is_updated_once json_Unmarshal
              (handler plain_client "Auto-update:" []) "push" "delivery-1"
              push_main [] plain_client "acme" "widgets" [pr1] pr2 []
              [listing; compare1])
    as (Hone & Hok).
  - reach (event "refs/heads/main") [compare1].
  - left. reflexivity.
  - vm_compute. discriminate.
  - split; [exact Hone|]. exact (proj2 (proj2 (Hok eq_refl))).
Defined.


(** * Further properties *)

(** ** The shape of one turn *)

Lemma gate_open_iff (h : PRBranchUpdateHandler) (pr : PullRequest.t) :
  gate_open h pr <-> eligible h pr = true.
Proof.
  unfold gate_open, eligible. split.
  - intros [-> | H]; [reflexivity | exact H].
  - intros H. now right.
Qed.

(** The four ways a turn can go: skipped, compared, updated, commented. *)
Lemma loop_body_cases (h : PRBranchUpdateHandler) (client : Client.t)
  (repoOwner repoName : string) (pr : PullRequest.t) (hist : list Call) :
  (eligible h pr = false /\
   loop_body h client repoOwner repoName pr hist = (next_iteration, [])) \/
  (eligible h pr = true /\
   (loop_body h client repoOwner repoName pr hist =
      (next_iteration, [compare_call repoOwner repoName pr]) \/
    (snd (update_answer client repoOwner repoName pr hist) = None /\
     loop_body h client repoOwner repoName pr hist =
       (next_iteration,
        [compare_call repoOwner repoName pr;
         update_call repoOwner repoName pr])) \/
    (exists e body,
       snd (update_answer client repoOwner repoName pr hist) = Some e /\
       loop_body h client repoOwner repoName pr hist =
         (match comment_answer client repoOwner repoName pr hist body with
          | Some e' => return_ e'
          | None => next_iteration
          end,
          [compare_call repoOwner repoName pr;
           update_call repoOwner repoName pr;
           comment_call repoOwner repoName pr body])))).
Proof.
  destruct (gate_open_dec h pr) as [Hopen|Hshut].
  - right. split; [now apply gate_open_iff|].
    destruct (Z_lt_le_dec (behindBy client repoOwner repoName pr hist) 1)
      as [Hlt|Hge].
    + left. now apply loop_body_up_to_date.
    + right.
      destruct (snd (update_answer client repoOwner repoName pr hist))
        as [e|] eqn:Hupd.
      * right. exists e.
        destruct (String.eqb_spec (errors.Error e) job_scheduled) as [Hs|Hs].
        -- eexists. split; [reflexivity|].
           now rewrite (loop_body_scheduled _ _ _ _ _ _ e Hopen Hge Hupd Hs).
        -- eexists. split; [reflexivity|].
           now rewrite (loop_body_failed _ _ _ _ _ _ e Hopen Hge Hupd Hs).
      * left. split; [reflexivity|]. now apply loop_body_updated.
  - left. split.
    + apply not_true_iff_false. intros H. apply Hshut. now apply gate_open_iff.
    + now apply loop_body_skipped.
Qed.

Lemma range_pullRequests_cons (h : PRBranchUpdateHandler) (client : Client.t)
  (repoOwner repoName : string) (pr : PullRequest.t)
  (rest : list PullRequest.t) (hist : list Call) :
  range_pullRequests h client repoOwner repoName (pr :: rest) hist =
    match fst (loop_body h client repoOwner repoName pr hist) with
    | next_iteration =>
        (fst (range_pullRequests h client repoOwner repoName rest
                (hist ++ snd (loop_body h client repoOwner repoName pr hist))),
         snd (loop_body h client repoOwner repoName pr hist) ++
         snd (range_pullRequests h client repoOwner repoName rest
                (hist ++ snd (loop_body h client repoOwner repoName pr hist))))
    | return_ e =>
        (Some e, snd (loop_body h client repoOwner repoName pr hist))
    end.
Proof.
  destruct (loop_body h client repoOwner repoName pr hist) as [[|e] cs] eqn:Hb;
    cbn [fst snd].
  - now apply range_pullRequests_next.
  - now apply range_pullRequests_return.
Qed.

Ltac turn_cases h client repoOwner repoName pr hist :=
  rewrite (range_pullRequests_cons h client repoOwner repoName pr);
  destruct (loop_body_cases h client repoOwner repoName pr hist)
    as [[Hel Hb] | [Hel [Hb | [[Hu Hb] | (e & body & Hu & Hb)]]]];
  rewrite Hb; cbn [fst snd].

(** ** What the loop calls *)

(** X1: in the loop over the pull requests there are never more comments than
    updates, more updates than comparisons, or more comparisons than pull
    requests that have the configured labels; and the loop never lists. *)
Theorem calls_are_nested (h : PRBranchUpdateHandler) (client : Client.t)
  (repoOwner repoName : string) (pullRequests : list PullRequest.t) :
  forall hist : list Call,
  let calls :=
    snd (range_pullRequests h client repoOwner repoName pullRequests hist) in
  length (filter isCreateComment calls) <= length (filter isUpdateBranch calls) /\
  length (filter isUpdateBranch calls) <= length (filter isCompareCommits calls) /\
  length (filter isCompareCommits calls)
    <= length (filter (eligible h) pullRequests) /\
  filter isList calls = [].
Proof.
  induction pullRequests as [|pr prs IH]; intros hist.
  - cbn. repeat split; lia.
  - cbv zeta. cbn [filter].
    turn_cases h client repoOwner repoName pr hist; rewrite Hel.
    + exact (IH _).
    + destruct (IH (hist ++ [compare_call repoOwner repoName pr]))
        as (A & B & C & D).
      rewrite !filter_app, !length_app, D. cbn. repeat split; lia.
    + destruct (IH (hist ++ [compare_call repoOwner repoName pr;
                             update_call repoOwner repoName pr]))
        as (A & B & C & D).
      rewrite !filter_app, !length_app, D. cbn. repeat split; lia.
    + destruct (comment_answer client repoOwner repoName pr hist body).
      * cbn. repeat split; lia.
      * destruct (IH (hist ++ [compare_call repoOwner repoName pr;
                               update_call repoOwner repoName pr;
                               comment_call repoOwner repoName pr body]))
          as (A & B & C & D).
        cbn [fst snd]. rewrite !filter_app, !length_app, D. cbn.
        repeat split; lia.
Qed.

(** An error that ends the loop is the answer to the comment it issued
    last. *)
Lemma range_error_origin (h : PRBranchUpdateHandler) (client : Client.t)
  (repoOwner repoName : string) (pullRequests : list PullRequest.t) :
  forall (hist calls : list Call) (err : errors.t),
  range_pullRequests h client repoOwner repoName pullRequests hist
    = (Some err, calls) ->
  exists earlier number body,
    calls = earlier ++ [Issues_CreateComment repoOwner repoName number body] /\
    Client.CreateComment client (hist ++ earlier) repoOwner repoName number body
      = Some err.
Proof.
  induction pullRequests as [|pr prs IH]; intros hist calls err.
  - discriminate.
  - turn_cases h client repoOwner repoName pr hist.
    + intros Hrun.
      destruct (IH (hist ++ []) (snd (range_pullRequests h client repoOwner
                                        repoName prs (hist ++ []))) err)
        as (earlier & n & b & Hc & Ha).
      { rewrite (surjective_pairing (range_pullRequests _ _ _ _ prs _)).
        now injection Hrun as -> _. }
      injection Hrun as _ <-. exists earlier, n, b.
      rewrite app_nil_r in Ha. now split.
    + intros Hrun.
      set (cs := [compare_call repoOwner repoName pr]) in *.
      destruct (IH (hist ++ cs) (snd (range_pullRequests h client repoOwner
                                        repoName prs (hist ++ cs))) err)
        as (earlier & n & b & Hc & Ha).
      { rewrite (surjective_pairing (range_pullRequests _ _ _ _ prs _)).
        now injection Hrun as -> _. }
      injection Hrun as _ <-. exists (cs ++ earlier), n, b.
      rewrite Hc, !app_assoc. split; [reflexivity | exact Ha].
    + intros Hrun.
      set (cs := [compare_call repoOwner repoName pr;
                  update_call repoOwner repoName pr]) in *.
      destruct (IH (hist ++ cs) (snd (range_pullRequests h client repoOwner
                                        repoName prs (hist ++ cs))) err)
        as (earlier & n & b & Hc & Ha).
      { rewrite (surjective_pairing (range_pullRequests _ _ _ _ prs _)).
        now injection Hrun as -> _. }
      injection Hrun as _ <-. exists (cs ++ earlier), n, b.
      rewrite Hc, !app_assoc. split; [reflexivity | exact Ha].
    + destruct (comment_answer client repoOwner repoName pr hist body)
        as [e'|] eqn:Hans; cbn [fst snd].
      * intros Hrun. injection Hrun as -> <-.
        exists [compare_call repoOwner repoName pr;
                update_call repoOwner repoName pr],
               (PullRequest.GetNumber pr), body.
        split; [reflexivity|].
        unfold comment_answer in Hans. now rewrite <- app_assoc in Hans.
      * intros Hrun.
        set (cs := [compare_call repoOwner repoName pr;
                    update_call repoOwner repoName pr;
                    comment_call repoOwner repoName pr body]) in *.
        destruct (IH (hist ++ cs) (snd (range_pullRequests h client repoOwner
                                          repoName prs (hist ++ cs))) err)
          as (earlier & n & b & Hc & Ha).
        { rewrite (surjective_pairing (range_pullRequests _ _ _ _ prs _)).
          now injection Hrun as -> _. }
        injection Hrun as _ <-. exists (cs ++ earlier), n, b.
        rewrite Hc, !app_assoc. split; [reflexivity | exact Ha].
Qed.

(** X2: an error that [Handle] returns is the wrapped error of the decoder,
    the error of the client factory, the error of the listing, or the answer
    to the comment it issued last; the error of a comparison or of an update
    is never what it returns. *)
Theorem error_origins
  (json_Unmarshal : string -> result (option PushEvent.t))
  (h : PRBranchUpdateHandler) (eventType deliveryID payload : string)
  (hist0 calls : list Call) (err : errors.t) :
  Handle json_Unmarshal h eventType deliveryID payload hist0
    = (Some err, calls) ->
  (exists cause,
     json_Unmarshal payload = Err cause /\
     err = errors.Wrap cause "failed to parse push event payload" /\
     calls = []) \/
  (exists pushEvent,
     json_Unmarshal payload = Ok pushEvent /\
     NewInstallationClient h (githubapp.GetInstallationIDFromEvent pushEvent)
       = Err err /\
     calls = []) \/
  (exists pushEvent client,
     json_Unmarshal payload = Ok pushEvent /\
     NewInstallationClient h (githubapp.GetInstallationIDFromEvent pushEvent)
       = Ok client /\
     let repo := PushEvent.GetRepo pushEvent in
     let repoOwner := User.GetLogin (PushEventRepository.GetOwner repo) in
     let repoName := PushEventRepository.GetName repo in
     (snd (Client.List_ client hist0 repoOwner repoName "open") = Some err /\
      calls = [PullRequests_List repoOwner repoName "open"]) \/
     (exists earlier number body,
        calls =
          earlier ++ [Issues_CreateComment repoOwner repoName number body] /\
        Client.CreateComment client (hist0 ++ earlier) repoOwner repoName
          number body = Some err)).
Proof.
  unfold Handle.
  destruct (json_Unmarshal payload) as [ev|cause] eqn:Hdec.
  - destruct (NewInstallationClient h _) as [client|e] eqn:Hcl.
    + destruct (negb _).
      * discriminate.
      * unfold bind at 1, client_List, request.
        intros H. right. right. exists ev, client.
        split; [reflexivity|]. split; [exact Hcl|]. cbv zeta.
        set (o := User.GetLogin _) in *.
        set (r := PushEventRepository.GetName _) in *.
        destruct (Client.List_ client hist0 o r "open") as [prs lerr] eqn:Hl.
        destruct lerr as [e|].
        -- cbn in H. injection H as -> <-. left. now split.
        -- destruct (range_pullRequests h client o r prs
                       (hist0 ++ [PullRequests_List o r "open"]))
             as [res cs] eqn:Hrun.
           injection H as -> <-.
           destruct (range_error_origin _ _ _ _ _ _ _ _ Hrun)
             as (earlier & n & b & Hc & Ha).
           right.
           exists (PullRequests_List o r "open" :: earlier), n, b.
           split; [now rewrite Hc|].
           now rewrite <- app_assoc in Ha.
    + cbn. intros H. injection H as -> <-.
      right. left. now exists ev.
  - cbn. intros H. injection H as <- <-. left. now exists cause.
Qed.

(** X3: on a platform where every update succeeds, the loop issues no
    comment and ends without an error. *)
Theorem successful_updates_need_no_comment (h : PRBranchUpdateHandler)
  (client : Client.t) (repoOwner repoName : string)
  (pullRequests : list PullRequest.t) :
  (forall hist owner repo number,
     snd (Client.UpdateBranch client hist owner repo number) = None) ->
  forall hist : list Call,
  fst (range_pullRequests h client repoOwner repoName pullRequests hist) = None /\
  filter isCreateComment
    (snd (range_pullRequests h client repoOwner repoName pullRequests hist)) = [].
Proof.
  intros Hok. induction pullRequests as [|pr prs IH]; intros hist.
  - now cbn.
  - turn_cases h client repoOwner repoName pr hist.
    + exact (IH _).
    + rewrite filter_app. exact (IH _).
    + rewrite filter_app. exact (IH _).
    + unfold update_answer in Hu. rewrite Hok in Hu. discriminate.
Qed.

(** X4: on a platform where every comment is posted, the loop ends without an
    error and compares exactly the pull requests that have the configured
    labels, each once, in the order of the listing. *)
Theorem posted_comments_keep_the_loop_going (h : PRBranchUpdateHandler)
  (client : Client.t) (repoOwner repoName : string)
  (pullRequests : list PullRequest.t) :
  (forall hist owner repo number body,
     Client.CreateComment client hist owner repo number body = None) ->
  forall hist : list Call,
  fst (range_pullRequests h client repoOwner repoName pullRequests hist) = None /\
  filter isCompareCommits
    (snd (range_pullRequests h client repoOwner repoName pullRequests hist))
    = map (compare_call repoOwner repoName)
          (filter (eligible h) pullRequests).
Proof.
  intros Hok. induction pullRequests as [|pr prs IH]; intros hist.
  - now cbn.
  - cbn [filter].
    turn_cases h client repoOwner repoName pr hist; rewrite Hel.
    + exact (IH _).
    + rewrite filter_app. destruct (IH (hist ++ [compare_call repoOwner repoName pr]))
        as [-> ->]. now split.
    + rewrite filter_app.
      destruct (IH (hist ++ [compare_call repoOwner repoName pr;
                             update_call repoOwner repoName pr]))
        as [-> ->]. now split.
    + unfold comment_answer. rewrite Hok. cbn [fst snd]. rewrite filter_app.
      destruct (IH (hist ++ [compare_call repoOwner repoName pr;
                             update_call repoOwner repoName pr;
                             comment_call repoOwner repoName pr body]))
        as [-> ->]. now split.
Qed.

(** X5: every call of the loop addresses the repository of the push, and
    every update and comment carries the number of a listed pull request. *)
Theorem calls_stay_on_the_listing (h : PRBranchUpdateHandler)
  (client : Client.t) (repoOwner repoName : string)
  (pullRequests : list PullRequest.t) :
  forall (hist : list Call) (c : Call),
  In c (snd (range_pullRequests h client repoOwner repoName pullRequests hist)) ->
  call_repository c = (repoOwner, repoName) /\
  (forall number, call_number c = Some number ->
     In number (map PullRequest.GetNumber pullRequests)).
Proof.
  induction pullRequests as [|pr prs IH]; intros hist c.
  - intros [].
  - assert (Hrest : forall hist',
              In c (snd (range_pullRequests h client repoOwner repoName prs hist')) ->
              call_repository c = (repoOwner, repoName) /\
              (forall number, call_number c = Some number ->
                 In number (map PullRequest.GetNumber (pr :: prs)))).
    { intros hist' Hin. destruct (IH hist' c Hin) as [Hr Hn].
      split; [exact Hr|]. intros n Hc. right. now apply Hn. }
    assert (Hturn : forall body,
              In c [compare_call repoOwner repoName pr;
                    update_call repoOwner repoName pr;
                    comment_call repoOwner repoName pr body] ->
              call_repository c = (repoOwner, repoName) /\
              (forall number, call_number c = Some number ->
                 In number (map PullRequest.GetNumber (pr :: prs)))).
    { intros body [<- | [<- | [<- | []]]]; (split; [reflexivity|]);
        cbn; intros n Hn; try discriminate; injection Hn as <-; now left. }
    turn_cases h client repoOwner repoName pr hist.
    + apply Hrest.
    + intros Hin. apply in_app_or in Hin as [Hin | Hin]; [|now apply Hrest in Hin].
      apply (Hturn ""%string). cbn in Hin |- *. tauto.
    + intros Hin. apply in_app_or in Hin as [Hin | Hin]; [|now apply Hrest in Hin].
      apply (Hturn ""%string). cbn in Hin |- *. tauto.
    + destruct (comment_answer client repoOwner repoName pr hist body);
        cbn [fst snd].
      * apply Hturn.
      * intros Hin. apply in_app_or in Hin as [Hin | Hin];
          [now apply (Hturn body) | now apply Hrest in Hin].
Qed.

Lemma range_never_lists (h : PRBranchUpdateHandler) (client : Client.t)
  (repoOwner repoName : string) (pullRequests : list PullRequest.t) :
  forall hist : list Call,
  filter isList
    (snd (range_pullRequests h client repoOwner repoName pullRequests hist)) = [].
Proof.
  induction pullRequests as [|pr prs IH]; intros hist.
  - reflexivity.
  - turn_cases h client repoOwner repoName pr hist.
    + apply IH.
    + rewrite filter_app, IH. reflexivity.
    + rewrite filter_app, IH. reflexivity.
    + destruct (comment_answer client repoOwner repoName pr hist body);
        cbn [fst snd]; [reflexivity|].
      rewrite filter_app, IH. reflexivity.
Qed.

(** ** The handler before the loop *)

(** X6: whenever [Handle] issues a call at all, the payload decoded, the
    installation client was obtained and the push was to the default branch;
    its first call lists the open pull requests of the pushed repository, and
    it never lists again. *)
Theorem listing_comes_first
  (json_Unmarshal : string -> result (option PushEvent.t))
  (h : PRBranchUpdateHandler) (eventType deliveryID payload : string)
  (hist0 calls : list Call) (res : error) :
  Handle json_Unmarshal h eventType deliveryID payload hist0 = (res, calls) ->
  calls <> [] ->
  exists pushEvent client rest,
    json_Unmarshal payload = Ok pushEvent /\
    NewInstallationClient h (githubapp.GetInstallationIDFromEvent pushEvent)
      = Ok client /\
    PushEvent.GetRef pushEvent =
      ("refs/heads/" ++
       PushEventRepository.GetDefaultBranch (PushEvent.GetRepo pushEvent))%string /\
    calls =
      PullRequests_List
        (User.GetLogin (PushEventRepository.GetOwner (PushEvent.GetRepo pushEvent)))
        (PushEventRepository.GetName (PushEvent.GetRepo pushEvent))
        "open" :: rest /\
    filter isList rest = [].
Proof.
  unfold Handle. intros Hrun Hcalls.
  destruct (json_Unmarshal payload) as [ev|cause] eqn:Hdec;
    [|injection Hrun as _ <-; contradiction].
  destruct (NewInstallationClient h _) as [client|e] eqn:Hcl;
    [|injection Hrun as _ <-; contradiction].
  destruct (String.eqb_spec (PushEvent.GetRef ev)
              ("refs/heads/" ++
               PushEventRepository.GetDefaultBranch (PushEvent.GetRepo ev)))
    as [Href|Href]; cbn [negb] in Hrun;
    [|injection Hrun as _ <-; contradiction].
  unfold bind at 1, client_List, request in Hrun.
  set (o := User.GetLogin _) in *. set (r := PushEventRepository.GetName _) in *.
  destruct (Client.List_ client hist0 o r "open") as [prs [e|]].
  - injection Hrun as _ <-. exists ev, client, []. now repeat split.
  - pose proof (range_never_lists h client o r prs
                  (hist0 ++ [PullRequests_List o r "open"])) as Hn.
    destruct (range_pullRequests h client o r prs _) as [res' cs].
    injection Hrun as _ <-. exists ev, client, cs. now repeat split.
Qed.

(** X7: when the listing fails, [Handle] returns the listing's error after
    that one call; pull requests handed back with the error are not looked
    at. *)
Theorem failed_listing_is_returned
  (json_Unmarshal : string -> result (option PushEvent.t))
  (h : PRBranchUpdateHandler) (eventType deliveryID payload : string)
  (hist0 : list Call) (pushEvent : option PushEvent.t) (client : Client.t)
  (err : errors.t) :
  json_Unmarshal payload = Ok pushEvent ->
  NewInstallationClient h (githubapp.GetInstallationIDFromEvent pushEvent)
    = Ok client ->
  PushEvent.GetRef pushEvent =
    ("refs/heads/" ++
     PushEventRepository.GetDefaultBranch (PushEvent.GetRepo pushEvent))%string ->
  let repo := PushEvent.GetRepo pushEvent in
  let repoOwner := User.GetLogin (PushEventRepository.GetOwner repo) in
  let repoName := PushEventRepository.GetName repo in
  snd (Client.List_ client hist0 repoOwner repoName "open") = Some err ->
  Handle json_Unmarshal h eventType deliveryID payload hist0 =
    (Some err, [PullRequests_List repoOwner repoName "open"]).
Proof.
  intros Hdec Hcl Href repo repoOwner repoName Hlist.
  unfold Handle. rewrite Hdec, Hcl, Href, String.eqb_refl. cbn [negb].
  unfold bind at 1, client_List, request. fold repo repoOwner repoName.
  destruct (Client.List_ client hist0 repoOwner repoName "open") as [prs lerr].
  cbn [snd] in Hlist. now subst lerr.
Qed.

(** X11: the client is asked for before the pushed ref is looked at: when the
    factory fails, [Handle] returns its error without a call, also for a push
    to a branch it would otherwise ignore. *)
Theorem client_error_is_returned_first
  (json_Unmarshal : string -> result (option PushEvent.t))
  (h : PRBranchUpdateHandler) (eventType deliveryID payload : string)
  (pushEvent : option PushEvent.t) (err : errors.t) :
  json_Unmarshal payload = Ok pushEvent ->
  NewInstallationClient h (githubapp.GetInstallationIDFromEvent pushEvent)
    = Err err ->
  forall hist0 : list Call,
    Handle json_Unmarshal h eventType deliveryID payload hist0 = (Some err, []) /\
    (PushEvent.GetRef pushEvent <>
       ("refs/heads/" ++
        PushEventRepository.GetDefaultBranch (PushEvent.GetRepo pushEvent))%string ->
     forall client,
       Handle json_Unmarshal
         {| NewInstallationClient := fun _ => Ok client;
            preamble := preamble h; labels := labels h |}
         eventType deliveryID payload hist0 = (None, [])).
Proof.
  intros Hdec Hcl hist0. split.
  - now apply (Handle_client_error json_Unmarshal h eventType deliveryID
                 payload pushEvent).
  - intros Href client. unfold Handle. rewrite Hdec. cbn [NewInstallationClient].
    apply String.eqb_neq in Href. now rewrite Href.
Qed.

(** ** More on the label filter *)

Lemma contains_lowered (prLabels : list (option Label.t)) (label : string) :
  contains prLabels label
    = existsb (fun name => String.eqb name label) (lowered_names prLabels).
Proof.
  induction prLabels as [|p ps IH]; cbn; [reflexivity|].
  rewrite IH. now destruct (String.eqb _ label).
Qed.

(** X8: the filter only grows with the pull request's labels and shrinks with
    the configured ones: a pull request that has all configured labels still
    has them when it carries more labels and fewer are configured.  Order and
    repetition play no part. *)
Theorem hasAllLabels_monotone (labels1 labels2 : list string)
  (prLabels1 prLabels2 : list (option Label.t)) :
  hasAllLabels labels1 prLabels1 = true ->
  incl labels2 labels1 ->
  incl prLabels1 prLabels2 ->
  hasAllLabels labels2 prLabels2 = true.
Proof.
  rewrite !hasAllLabels_true_iff. intros Hall Hl Hp label Hin.
  specialize (Hall label (Hl label Hin)).
  apply contains_true_iff in Hall as (p & Hpin & Hname).
  apply contains_true_iff. exists p. split; [now apply Hp | exact Hname].
Qed.

(** X9: for ASCII names, when no configured label holds an upper-case
    letter the filter is the comparison letter case apart: the pull request
    passes exactly when every configured label equals one of its label names
    up to case. *)
Theorem lowercase_labels_match_any_case (labels : list string)
  (prLabels : list (option Label.t)) :
  (forall label, In label labels ->
     strings.isASCII label = true /\ strings.hasUpper label = false) ->
  ascii_names prLabels ->
  (hasAllLabels labels prLabels = true <->
   forall label, In label labels ->
     exists prLabel, In prLabel prLabels /\
       strings.ToLower (Label.GetName prLabel) = strings.ToLower label).
Proof.
  intros Hlow _. rewrite hasAllLabels_true_iff. split.
  - intros H label Hin.
    now apply (contains_lowercase_label label prLabels
                 (proj2 (Hlow label Hin))), H.
  - intros H label Hin.
    now apply (contains_lowercase_label label prLabels
                 (proj2 (Hlow label Hin))), H.
Qed.

(** X10: the letter case of ASCII label names of the pull request never
    matters: two lists of ASCII names with the same lower-cased names get the
    same answer. *)
Theorem pr_label_case_is_irrelevant (labels : list string)
  (prLabels1 prLabels2 : list (option Label.t)) :
  ascii_names prLabels1 ->
  ascii_names prLabels2 ->
  lowered_names prLabels1 = lowered_names prLabels2 ->
  hasAllLabels labels prLabels1 = hasAllLabels labels prLabels2.
Proof.
  intros _ _ Hsame. induction labels as [|label ls IH]; cbn; [reflexivity|].
  now rewrite !contains_lowered, Hsame, IH.
Qed.

(** * The earlier handlers *)

Ltac unfold_earlier :=
  unfold Earlier.client_GetBranch, Earlier.client_List,
    Earlier.client_CompareCommits, Earlier.client_UpdateBranch,
    Earlier.client_CreateComment, Earlier.bind, Earlier.ret, Earlier.request;
  cbv beta.

(** ** The push handler without labels *)


(** X13: the earlier push handler asks for the default branch before it
    lists: when that call fails it returns the error and calls nothing
    else. *)
Theorem earlier_push_needs_the_branch
  (json_Unmarshal : string -> result (option PushEvent.t))
  (h : Earlier.PRBranchUpdateHandler) (eventType deliveryID payload : string)
  (hist0 : list Earlier.Call) (pushEvent : option PushEvent.t)
  (client : Earlier.Client.t) (err : errors.t) :
  json_Unmarshal payload = Ok pushEvent ->
  Earlier.NewInstallationClient h
    (githubapp.GetInstallationIDFromEvent pushEvent) = Ok client ->
  PushEvent.GetRef pushEvent =
    ("refs/heads/" ++
     PushEventRepository.GetDefaultBranch (PushEvent.GetRepo pushEvent))%string ->
  let repo := PushEvent.GetRepo pushEvent in
  let branch_call :=
    Earlier.Repositories_GetBranch
      (User.GetLogin (PushEventRepository.GetOwner repo))
      (PushEventRepository.GetName repo)
      (PushEventRepository.GetDefaultBranch repo) true in
  earlier_error client hist0 branch_call = Some err ->
  Earlier.Push.Handle json_Unmarshal h eventType deliveryID payload hist0 =
    (Some err, [branch_call]).
Proof.
  intros Hdec Hcl Href repo branch_call Hbranch.
  unfold Earlier.Push.Handle. rewrite Hdec, Hcl, Href, String.eqb_refl.
  cbn [negb]. unfold_earlier. fold repo.
  unfold earlier_error, branch_call in Hbranch.
  destruct (Earlier.Client.GetBranch _ _ _ _ _ _) as [b berr].
  cbn [snd] in Hbranch. now subst berr.
Qed.

(** ** The handler of pull request events *)

(** X14: an event whose action is "opened" is ignored before the client is
    asked for: the handler returns nil without a call, even with a client
    factory that would fail. *)
Theorem opened_pull_request_is_ignored
  (json_Unmarshal :
     string -> result Earlier.PullRequestHandler.PullRequestEvent.t)
  (h : Earlier.PRBranchUpdateHandler) (eventType deliveryID payload : string)
  (event : Earlier.PullRequestHandler.PullRequestEvent.t) :
  json_Unmarshal payload = Ok event ->
  Earlier.PullRequestHandler.PullRequestEvent.GetAction event = "opened"%string ->
  forall hist0 : list Earlier.Call,
    Earlier.PullRequestHandler.Handle json_Unmarshal h eventType deliveryID
      payload hist0 = (None, []).
Proof.
  intros Hdec Hact hist0. unfold Earlier.PullRequestHandler.Handle.
  now rewrite Hdec, Hact.
Qed.

Section PullRequestRun.

Variable json_Unmarshal :
  string -> result Earlier.PullRequestHandler.PullRequestEvent.t.
Variable h : Earlier.PRBranchUpdateHandler.
Variables eventType deliveryID payload : string.
Variable hist0 : list Earlier.Call.
Variable event : Earlier.PullRequestHandler.PullRequestEvent.t.
Variable client : Earlier.Client.t.
Variable baseRepo : option Earlier.Branch.t.
Variable updateResponse : option PullRequestBranchUpdateResponse.t.
Variable e : errors.t.

Hypothesis Hdec : json_Unmarshal payload = Ok event.
Hypothesis Hact :
  Earlier.PullRequestHandler.PullRequestEvent.GetAction event <> "opened"%string.
Hypothesis Hcl :
  Earlier.NewInstallationClient h
    (Earlier.PullRequestHandler.GetInstallationIDFromEvent event) = Ok client.
Hypothesis Hbranch :
  Earlier.Client.GetBranch client hist0 (event_owner event) (event_repo event)
    (Earlier.PullRequestHandler.PullRequestBranch.GetRef
       (Earlier.PullRequestHandler.PullRequest.GetBase
          (Earlier.PullRequestHandler.PullRequestEvent.GetPullRequest event)))
    true = (baseRepo, None).
Hypothesis Hbehind :
  (1 <= CommitsComparison.GetBehindBy
          (fst (Earlier.Client.CompareCommits client
                  (hist0 ++ [event_branch_call event])
                  (event_owner event) (event_repo event)
                  (Earlier.RepositoryCommit.GetSHA
                     (Earlier.Branch.GetCommit baseRepo))
                  (Earlier.PullRequestHandler.PullRequestBranch.GetSHA
                     (Earlier.PullRequestHandler.PullRequest.GetHead
                        (Earlier.PullRequestHandler.PullRequestEvent.GetPullRequest
                           event))))))%Z.
Hypothesis Hupd :
  Earlier.Client.UpdateBranch client
    (hist0 ++ [event_branch_call event; event_compare_call event baseRepo])
    (event_owner event) (event_repo event) (event_number event)
    = (updateResponse, Some e).

Lemma pull_request_run :
  Earlier.PullRequestHandler.Handle json_Unmarshal h eventType deliveryID
    payload hist0 =
  if String.eqb (errors.Error e) job_scheduled
  then (None,
        [event_branch_call event; event_compare_call event baseRepo;
         event_update_call event;
         event_comment_call event
           (Earlier.preamble h ++ LF ++ LF ++
            PullRequestBranchUpdateResponse.GetMessage updateResponse)%string])
  else (Some e,
        [event_branch_call event; event_compare_call event baseRepo;
         event_update_call event]).
Proof.
  unfold Earlier.PullRequestHandler.Handle. rewrite Hdec.
  apply String.eqb_neq in Hact. rewrite Hact, Hcl.
  unfold_earlier.
  unfold event_branch_call, event_compare_call, event_update_call,
    event_comment_call, event_owner, event_repo, event_number in *.
  rewrite Hbranch.
  destruct (Earlier.Client.CompareCommits _ _ _ _ _ _) as [cmp cerr].
  cbn [fst] in Hbehind.
  destruct (Z.geb_spec (CommitsComparison.GetBehindBy cmp) 1); [|lia].
  rewrite <- app_assoc. cbn [app]. rewrite Hupd.
  destruct (String.eqb (errors.Error e) job_scheduled); reflexivity.
Qed.

End PullRequestRun.

(** X15: when the update of the event's pull request is scheduled on the
    platform's side, the handler asks for the base branch, compares the
    branch's commit with the head commit, requests the update, comments with
    the preamble, an empty line and the response's message, and returns nil;
    the answer to the comment is not looked at. *)
Theorem pull_request_scheduled_is_commented
  (json_Unmarshal :
     string -> result Earlier.PullRequestHandler.PullRequestEvent.t)
  (h : Earlier.PRBranchUpdateHandler) (eventType deliveryID payload : string)
  (hist0 : list Earlier.Call)
  (event : Earlier.PullRequestHandler.PullRequestEvent.t)
  (client : Earlier.Client.t) (baseRepo : option Earlier.Branch.t)
  (updateResponse : option PullRequestBranchUpdateResponse.t) (e : errors.t) :
  json_Unmarshal payload = Ok event ->
  Earlier.PullRequestHandler.PullRequestEvent.GetAction event <> "opened"%string ->
  Earlier.NewInstallationClient h
    (Earlier.PullRequestHandler.GetInstallationIDFromEvent event) = Ok client ->
  Earlier.Client.GetBranch client hist0 (event_owner event) (event_repo event)
    (Earlier.PullRequestHandler.PullRequestBranch.GetRef
       (Earlier.PullRequestHandler.PullRequest.GetBase
          (Earlier.PullRequestHandler.PullRequestEvent.GetPullRequest event)))
    true = (baseRepo, None) ->
  (1 <= CommitsComparison.GetBehindBy
          (fst (Earlier.Client.CompareCommits client
                  (hist0 ++ [event_branch_call event])
                  (event_owner event) (event_repo event)
                  (Earlier.RepositoryCommit.GetSHA
                     (Earlier.Branch.GetCommit baseRepo))
                  (Earlier.PullRequestHandler.PullRequestBranch.GetSHA
                     (Earlier.PullRequestHandler.PullRequest.GetHead
                        (Earlier.PullRequestHandler.PullRequestEvent.GetPullRequest
                           event))))))%Z ->
  Earlier.Client.UpdateBranch client
    (hist0 ++ [event_branch_call event; event_compare_call event baseRepo])
    (event_owner event) (event_repo event) (event_number event)
    = (updateResponse, Some e) ->
  errors.Error e = job_scheduled ->
  Earlier.PullRequestHandler.Handle json_Unmarshal h eventType deliveryID
    payload hist0 =
    (None,
     [event_branch_call event; event_compare_call event baseRepo;
      event_update_call event;
      event_comment_call event
        (Earlier.preamble h ++ LF ++ LF ++
         PullRequestBranchUpdateResponse.GetMessage updateResponse)%string]).
Proof.
  intros Hdec Hact Hcl Hbranch Hbehind Hupd Hmsg.
  rewrite (pull_request_run json_Unmarshal h eventType deliveryID payload hist0
             event client baseRepo updateResponse e
             Hdec Hact Hcl Hbranch Hbehind Hupd).
  now rewrite Hmsg, String.eqb_refl.
Qed.

(** X16: any other failure of the update is returned as it is, and the
    handler does not comment. *)
Theorem pull_request_failure_is_returned
  (json_Unmarshal :
     string -> result Earlier.PullRequestHandler.PullRequestEvent.t)
  (h : Earlier.PRBranchUpdateHandler) (eventType deliveryID payload : string)
  (hist0 : list Earlier.Call)
  (event : Earlier.PullRequestHandler.PullRequestEvent.t)
  (client : Earlier.Client.t) (baseRepo : option Earlier.Branch.t)
  (updateResponse : option PullRequestBranchUpdateResponse.t) (e : errors.t) :
  json_Unmarshal payload = Ok event ->
  Earlier.PullRequestHandler.PullRequestEvent.GetAction event <> "opened"%string ->
  Earlier.NewInstallationClient h
    (Earlier.PullRequestHandler.GetInstallationIDFromEvent event) = Ok client ->
  Earlier.Client.GetBranch client hist0 (event_owner event) (event_repo event)
    (Earlier.PullRequestHandler.PullRequestBranch.GetRef
       (Earlier.PullRequestHandler.PullRequest.GetBase
          (Earlier.PullRequestHandler.PullRequestEvent.GetPullRequest event)))
    true = (baseRepo, None) ->
  (1 <= CommitsComparison.GetBehindBy
          (fst (Earlier.Client.CompareCommits client
                  (hist0 ++ [event_branch_call event])
                  (event_owner event) (event_repo event)
                  (Earlier.RepositoryCommit.GetSHA
                     (Earlier.Branch.GetCommit baseRepo))
                  (Earlier.PullRequestHandler.PullRequestBranch.GetSHA
                     (Earlier.PullRequestHandler.PullRequest.GetHead
                        (Earlier.PullRequestHandler.PullRequestEvent.GetPullRequest
                           event))))))%Z ->
  Earlier.Client.UpdateBranch client
    (hist0 ++ [event_branch_call event; event_compare_call event baseRepo])
    (event_owner event) (event_repo event) (event_number event)
    = (updateResponse, Some e) ->
  errors.Error e <> job_scheduled ->
  Earlier.PullRequestHandler.Handle json_Unmarshal h eventType deliveryID
    payload hist0 =
    (Some e,
     [event_branch_call event; event_compare_call event baseRepo;
      event_update_call event]).
Proof.
  intros Hdec Hact Hcl Hbranch Hbehind Hupd Hmsg.
  rewrite (pull_request_run json_Unmarshal h eventType deliveryID payload hist0
             event client baseRepo updateResponse e
             Hdec Hact Hcl Hbranch Hbehind Hupd).
  apply String.eqb_neq in Hmsg. now rewrite Hmsg.
Qed.

(** X17: the handler of pull request events issues at most four calls, and
    whenever it returns an error it has not commented: the error of a comment
    never reaches the caller. *)
Theorem pull_request_error_means_no_comment
  (json_Unmarshal :
     string -> result Earlier.PullRequestHandler.PullRequestEvent.t)
  (h : Earlier.PRBranchUpdateHandler) (eventType deliveryID payload : string)
  (hist0 : list Earlier.Call) :
  let run :=
    Earlier.PullRequestHandler.Handle json_Unmarshal h eventType deliveryID
      payload hist0 in
  length (snd run) <= 4 /\
  (fst run <> None -> filter Earlier.isCreateComment (snd run) = []).
Proof.
  cbv zeta. unfold Earlier.PullRequestHandler.Handle.
  destruct (json_Unmarshal payload) as [event|cause];
    [|cbn; split; [lia | reflexivity]].
  destruct (String.eqb _ "opened"); [cbn; split; [lia | reflexivity]|].
  destruct (Earlier.NewInstallationClient h _) as [client|err];
    [|cbn; split; [lia | reflexivity]].
  unfold_earlier.
  destruct (Earlier.Client.GetBranch _ _ _ _ _ _) as [b [berr|]];
    [cbn; split; [lia | reflexivity]|].
  destruct (Earlier.Client.CompareCommits _ _ _ _ _ _) as [cmp cerr].
  destruct (CommitsComparison.GetBehindBy cmp >=? 1)%Z;
    [|cbn; split; [lia | reflexivity]].
  destruct (Earlier.Client.UpdateBranch _ _ _ _ _) as [resp [uerr|]];
    [|cbn; split; [lia | reflexivity]].
  destruct (String.eqb (errors.Error uerr) job_scheduled); cbn.
  - split; [lia | intros H; now contradiction H].
  - split; [lia | reflexivity].
Qed.

(** * More runs on acme/widgets *)

Lemma error_origins_witness :
  exists earlier number body,
    [listing; compare1; compare2; update2;
     comment_call "acme" "widgets" pr2
       ("Auto-update:" ++ LF ++ LF ++ "Updating pull request branch.")%string]
      = earlier ++ [Issues_CreateComment "acme" "widgets" number body] /\
    Client.CreateComment (scheduled_client (Some forbidden)) ([] ++ earlier)
      "acme" "widgets" number body = Some forbidden.
Proof.
  destruct (error_origins json_Unmarshal
              (handler (scheduled_client (Some forbidden)) "Auto-update:" [])
              "push" "delivery-1" push_main []
              [listing; compare1; compare2; update2;
               comment_call "acme" "widgets" pr2
                 ("Auto-update:" ++ LF ++ LF ++
                  "Updating pull request branch.")%string]
              forbidden eq_refl)
    as [(cause & Hdec & _) | [(ev & Hdec & Hcl & _) | (ev & cl & Hdec & Hcl & Hrun)]].
  - discriminate Hdec.
  - exfalso. injection Hdec as <-. discriminate Hcl.
  - injection Hdec as <-. injection Hcl as <-.
    destruct Hrun as [[_ Hc] | Hrun]; [discriminate Hc | exact Hrun].
Defined.

Lemma successful_updates_need_no_comment_witness :
  fst (range_pullRequests (handler plain_client "Auto-update:" []) plain_client
         "acme" "widgets" [pr1; pr2] [listing]) = None /\
  filter isCreateComment
    (snd (range_pullRequests (handler plain_client "Auto-update:" [])
            plain_client "acme" "widgets" [pr1; pr2] [listing])) = [].
Proof.
  apply (successful_updates_need_no_comment
           (handler plain_client "Auto-update:" []) plain_client
           "acme" "widgets" [pr1; pr2]).
  intros hist owner repo number. reflexivity.
Defined.

Lemma posted_comments_keep_the_loop_going_witness :
  fst (range_pullRequests (handler conflict_client "Auto-update:" ["wip"])
         conflict_client "acme" "widgets" [pr1; pr2] [listing]) = None /\
  filter isCompareCommits
    (snd (range_pullRequests (handler conflict_client "Auto-update:" ["wip"])
            conflict_client "acme" "widgets" [pr1; pr2] [listing]))
    = [compare2].
Proof.
  apply (posted_comments_keep_the_loop_going
           (handler conflict_client "Auto-update:" ["wip"]) conflict_client
           "acme" "widgets" [pr1; pr2]).
  intros hist owner repo number body. reflexivity.
Defined.

Lemma calls_stay_on_the_listing_witness :
  call_repository update2 = ("acme", "widgets")%string /\
  (forall number, call_number update2 = Some number ->
     In number (map PullRequest.GetNumber [pr1; pr2])).
Proof.
  apply (calls_stay_on_the_listing (handler plain_client "Auto-update:" [])
           plain_client "acme" "widgets" [pr1; pr2] [listing] update2).
  right. right. left. reflexivity.
Defined.

Lemma listing_comes_first_witness :
  exists pushEvent client rest,
    json_Unmarshal push_main = Ok pushEvent /\
    NewInstallationClient (handler plain_client "Auto-update:" [])
      (githubapp.GetInstallationIDFromEvent pushEvent) = Ok client /\
    PushEvent.GetRef pushEvent =
      ("refs/heads/" ++
       PushEventRepository.GetDefaultBranch (PushEvent.GetRepo pushEvent))%string /\
    [listing; compare1; compare2; update2] =
      PullRequests_List
        (User.GetLogin (PushEventRepository.GetOwner (PushEvent.GetRepo pushEvent)))
        (PushEventRepository.GetName (PushEvent.GetRepo pushEvent))
        "open" :: rest /\
    filter isList rest = [].
Proof.
  apply (listing_comes_first json_Unmarshal
           (handler plain_client "Auto-update:" []) "push" "delivery-1"
           push_main [] [listing; compare1; compare2; update2] None).
  - reflexivity.
  - discriminate.
Defined.

Lemma failed_listing_is_returned_witness :
  deliver (handler Outage.client "Auto-update:" []) push_main
    = (Some forbidden, [listing]).
Proof.
  apply (failed_listing_is_returned json_Unmarshal
           (handler Outage.client "Auto-update:" []) "push" "delivery-1"
           push_main [] (event "refs/heads/main") Outage.client forbidden).
  - reflexivity.
  - reflexivity.
  - reflexivity.
  - reflexivity.
Defined.

Lemma client_error_is_returned_first_witness :
  deliver Outage.no_client push_feature = (Some forbidden, []).
Proof.
  apply (client_error_is_returned_first json_Unmarshal Outage.no_client "push"
           "delivery-1" push_feature (event "refs/heads/feature-branch")
           forbidden).
  - reflexivity.
  - reflexivity.
Defined.

Lemma hasAllLabels_monotone_witness :
  hasAllLabels ["ready to merge"]%string
    [label "wip"; label "Ready to Merge"; label "Approved To Merge"] = true.
Proof.
  apply (hasAllLabels_monotone
           ["approved to merge"; "ready to merge"]%string
           ["ready to merge"]%string
           [label "Approved To Merge"; label "Ready to Merge"]
           [label "wip"; label "Ready to Merge"; label "Approved To Merge"]).
  - reflexivity.
  - intros x [<- | []]. right. left. reflexivity.
  - intros x [<- | [<- | []]].
    + right. right. left. reflexivity.
    + right. left. reflexivity.
Defined.

Lemma lowercase_labels_match_any_case_witness :
  hasAllLabels ["approved to merge"]%string [label "Approved To Merge"] = true <->
  forall l, In l ["approved to merge"]%string ->
    exists prLabel, In prLabel [label "Approved To Merge"] /\
      strings.ToLower (Label.GetName prLabel) = strings.ToLower l.
Proof.
  apply (lowercase_labels_match_any_case ["approved to merge"]%string
           [label "Approved To Merge"]).
  - intros l [<- | []]. split; reflexivity.
  - intros prLabel [<- | []]. reflexivity.
Defined.

Lemma pr_label_case_is_irrelevant_witness :
  hasAllLabels ["approved to merge"]%string [label "APPROVED TO MERGE"]
    = hasAllLabels ["approved to merge"]%string [label "Approved to Merge"].
Proof.
  apply (pr_label_case_is_irrelevant ["approved to merge"]%string
           [label "APPROVED TO MERGE"] [label "Approved to Merge"]).
  - intros prLabel [<- | []]. reflexivity.
  - intros prLabel [<- | []]. reflexivity.
  - reflexivity.
Defined.


Lemma earlier_push_needs_the_branch_witness :
  Earlier.Push.Handle json_Unmarshal
    (EarlierFixture.handler EarlierFixture.branchless_client)
    "push" "delivery-1" push_main [] =
    (Some not_found,
     [Earlier.Repositories_GetBranch "acme" "widgets" "main" true]).
Proof.
  apply (earlier_push_needs_the_branch json_Unmarshal
           (EarlierFixture.handler EarlierFixture.branchless_client)
           "push" "delivery-1" push_main [] (event "refs/heads/main")
           EarlierFixture.branchless_client not_found).
  - reflexivity.
  - reflexivity.
  - reflexivity.
  - reflexivity.
Defined.

Lemma opened_pull_request_is_ignored_witness :
  Earlier.PullRequestHandler.Handle EarlierFixture.decode_pull_request
    EarlierFixture.no_client "pull_request" "delivery-1"
    "pull_request opened" [] = (None, []).
Proof.
  apply (opened_pull_request_is_ignored EarlierFixture.decode_pull_request
           EarlierFixture.no_client "pull_request" "delivery-1"
           "pull_request opened" (EarlierFixture.pull_request_event "opened")).
  - reflexivity.
  - reflexivity.
Defined.

Lemma pull_request_scheduled_is_commented_witness :
  Earlier.PullRequestHandler.Handle EarlierFixture.decode_pull_request
    (EarlierFixture.handler (EarlierFixture.scheduled_client (Some forbidden)))
    "pull_request" "delivery-1" "pull_request synchronize" [] =
    (None,
     [Earlier.Repositories_GetBranch "acme" "widgets" "main" true;
      Earlier.Repositories_CompareCommits "acme" "widgets" "abc123" "def456";
      Earlier.PullRequests_UpdateBranch "acme" "widgets" 7;
      Earlier.Issues_CreateComment "acme" "widgets" 7
        ("Auto-update:" ++ LF ++ LF ++ "Updating pull request branch.")%string]).
Proof.
  apply (pull_request_scheduled_is_commented EarlierFixture.decode_pull_request
           (EarlierFixture.handler
              (EarlierFixture.scheduled_client (Some forbidden)))
           "pull_request" "delivery-1" "pull_request synchronize" []
           (EarlierFixture.pull_request_event "synchronize")
           (EarlierFixture.scheduled_client (Some forbidden))
           (fst EarlierFixture.main_branch) (fst scheduled)
           (errors.New job_scheduled)).
  - reflexivity.
  - now apply String.eqb_neq.
  - reflexivity.
  - reflexivity.
  - vm_compute. discriminate.
  - reflexivity.
  - reflexivity.
Defined.

Lemma pull_request_failure_is_returned_witness :
  Earlier.PullRequestHandler.Handle EarlierFixture.decode_pull_request
    (EarlierFixture.handler (EarlierFixture.conflict_client None))
    "pull_request" "delivery-1" "pull_request synchronize" [] =
    (Some merge_conflict,
     [Earlier.Repositories_GetBranch "acme" "widgets" "main" true;
      Earlier.Repositories_CompareCommits "acme" "widgets" "abc123" "def456";
      Earlier.PullRequests_UpdateBranch "acme" "widgets" 7]).
Proof.
  apply (pull_request_failure_is_returned EarlierFixture.decode_pull_request
           (EarlierFixture.handler (EarlierFixture.conflict_client None))
           "pull_request" "delivery-1" "pull_request synchronize" []
           (EarlierFixture.pull_request_event "synchronize")
           (EarlierFixture.conflict_client None)
           (fst EarlierFixture.main_branch) None merge_conflict).
  - reflexivity.
  - now apply String.eqb_neq.
  - reflexivity.
  - reflexivity.
  - vm_compute. discriminate.
  - reflexivity.
  - now apply String.eqb_neq.
Defined.
